(** * Voice interview recorder: the capture session, the upload workflow
      and the recordings query, embedded from the TypeScript sources.

    - [JS], [Blob]: the platform values the components handle (strings with
      their truthiness and [trim], thrown values, blobs).
    - [Browser]: the platform resources the recorder component owns or
      touches (media tracks, interval timers, object URLs, device requests).
    - [AudioRecorder]: the component of [AudioRecorder.tsx] (React state,
      refs, event handlers, rendering conditions).
    - [Supabase], [RecordingsList], [App]: [lib/supabase.ts], the query of
      [RecordingsList.tsx] and [handleRecordingComplete] of [App.tsx].
    - [Display], [RecorderEvents]: the elapsed-time display and the recorder
      driven by arbitrary sequences of events.
    - [ListView], [AppShell]: the fetch of [RecordingsList.tsx] and the
      session handling and screens of [App.tsx].
    - [Policies]: the two migrations and the row-level policies they
      create. *)

From Stdlib Require Import Ascii.
From stdpp Require Import base decidable option list strings pretty gmap sets.

(** ** JavaScript values *)

Module JS.

(** A value caught by a [catch] clause: [instanceofError] is the outcome of
    [error instanceof Error]; [name] and [message] are read only then. *)
Record Thrown := mkThrown {
  instanceofError : bool;
  name : string;
  message : string
}.

(** [new Error(msg)] *)
Definition newError (msg : string) : Thrown :=
  {| instanceofError := true; name := "Error"; message := msg |}.

(** Truthiness of a string: only the empty string is falsy. *)
Definition truthy (s : string) : bool :=
  match s with
  | "" => false
  | String _ _ => true
  end.

(** [a || b] on strings. *)
Definition or_else (a b : string) : string := if truthy a then a else b.

(** White space and line terminators recognised by [String.prototype.trim],
    for strings whose code units are below 256 (tab, line feed, vertical
    tab, form feed, carriage return, space, no-break space). *)
Definition isWhiteSpace (c : ascii) : bool :=
  match c with
  | "009" | "010" | "011" | "012" | "013" | " " | "160" => true
  | _ => false
  end%char.

Fixpoint trimStart (s : string) : string :=
  match s with
  | "" => ""
  | String c rest => if isWhiteSpace c then trimStart rest else s
  end.

Definition trimEnd (s : string) : string :=
  String.rev (trimStart (String.rev s)).

(** [s.trim()] *)
Definition trim (s : string) : string := trimEnd (trimStart s).

End JS.

(** ** Blobs *)

Module Blob.

Record Blob := mkBlob {
  bytes : list Byte.byte;
  type : string
}.

(** [blob.size] *)
Definition size (b : Blob) : nat := length (bytes b).

(** [new Blob(parts, { type })]: the parts' bytes, in order. The types
    passed by this program are already lower-case printable ASCII, which
    the constructor keeps as they are. *)
Definition new (parts : list Blob) (ty : string) : Blob :=
  {| bytes := concat (bytes <$> parts); type := ty |}.

End Blob.

(** ** Platform resources *)

Module Browser.

Inductive TrackKind := audio | video.

Record Track := mkTrack { track_id : positive; kind : TrackKind }.

(** A [MediaStream], as the list [getTracks()] returns. *)
Record MediaStream := mkStream { getTracks : list Track }.

Definition isAudio (t : Track) : bool :=
  match kind t with audio => true | video => false end.

Definition getAudioTracks (st : MediaStream) : list Track :=
  List.filter isAudio (getTracks st).

(** [liveTracks]: tracks that capture (not stopped); [intervals]: running
    interval timers, whose ids are positive integers; [objectUrls]: object
    URLs created and not revoked; [deviceRequests]: calls of
    [getUserMedia] so far; [pendingRequests]: those not settled yet. *)
Record Browser := mkBrowser {
  liveTracks : gset positive;
  intervals : gset positive;
  nextIntervalId : positive;
  objectUrls : gset string;
  deviceRequests : nat;
  pendingRequests : nat
}.

Definition with_liveTracks (f : gset positive → gset positive) (b : Browser) :=
  {| liveTracks := f (liveTracks b); intervals := intervals b;
     nextIntervalId := nextIntervalId b; objectUrls := objectUrls b;
     deviceRequests := deviceRequests b; pendingRequests := pendingRequests b |}.

Definition with_intervals (f : gset positive → gset positive) (b : Browser) :=
  {| liveTracks := liveTracks b; intervals := f (intervals b);
     nextIntervalId := nextIntervalId b; objectUrls := objectUrls b;
     deviceRequests := deviceRequests b; pendingRequests := pendingRequests b |}.

Definition with_objectUrls (f : gset string → gset string) (b : Browser) :=
  {| liveTracks := liveTracks b; intervals := intervals b;
     nextIntervalId := nextIntervalId b; objectUrls := f (objectUrls b);
     deviceRequests := deviceRequests b; pendingRequests := pendingRequests b |}.

(** [track.stop()] *)
Definition stop (t : Track) (b : Browser) : Browser :=
  with_liveTracks (λ live, live ∖ {[ track_id t ]}) b.

(** [stream.getTracks().forEach(track => track.stop())] *)
Definition stopTracks (st : MediaStream) (b : Browser) : Browser :=
  foldl (λ acc t, stop t acc) b (getTracks st).

(** The tracks of a stream that [getUserMedia] hands over are live. *)
Definition startTracks (st : MediaStream) (b : Browser) : Browser :=
  with_liveTracks (λ live, live ∪ list_to_set (track_id <$> getTracks st)) b.

(** [setInterval(...)]: a fresh id, and the timer runs. *)
Definition setInterval (b : Browser) : positive * Browser :=
  let id := nextIntervalId b in
  (id,
   {| liveTracks := liveTracks b; intervals := intervals b ∪ {[ id ]};
      nextIntervalId := Pos.succ id; objectUrls := objectUrls b;
      deviceRequests := deviceRequests b; pendingRequests := pendingRequests b |}).

(** [clearInterval(id)] *)
Definition clearInterval (id : positive) (b : Browser) : Browser :=
  with_intervals (λ running, running ∖ {[ id ]}) b.

(** [URL.createObjectURL(blob)]: a fresh [blob:] URL; the platform picks
    the part after the scheme. *)
Definition createObjectURL (suffix : string) (b : Browser) : string * Browser :=
  let url := "blob:" +:+ suffix in
  (url, with_objectUrls (λ urls, urls ∪ {[ url ]}) b).

(** [URL.revokeObjectURL(url)] *)
Definition revokeObjectURL (url : string) (b : Browser) : Browser :=
  with_objectUrls (λ urls, urls ∖ {[ url ]}) b.

(** The call [navigator.mediaDevices.getUserMedia(...)] is issued. *)
Definition requestUserMedia (b : Browser) : Browser :=
  {| liveTracks := liveTracks b; intervals := intervals b;
     nextIntervalId := nextIntervalId b; objectUrls := objectUrls b;
     deviceRequests := S (deviceRequests b);
     pendingRequests := S (pendingRequests b) |}.

(** The promise of one request settles. *)
Definition settleUserMedia (b : Browser) : Browser :=
  {| liveTracks := liveTracks b; intervals := intervals b;
     nextIntervalId := nextIntervalId b; objectUrls := objectUrls b;
     deviceRequests := deviceRequests b;
     pendingRequests := pred (pendingRequests b) |}.

End Browser.

(** ** The recorder component ([AudioRecorder.tsx]) *)

Module AudioRecorder.
Import JS Browser.

Inductive RecorderState := inactive | recording | paused.

(** The [MediaRecorder] object behind [mediaRecorderRef]: the MIME type it
    was constructed with and its [state] property. *)
Record MediaRecorder := mkRecorder {
  mimeType : string;
  state : RecorderState
}.

(** The [useState] cells and the [useRef] cells of the component. *)
Record State := mkState {
  isRecording : bool;
  audioBlob : option Blob.Blob;
  recordingTime : nat;
  audioUrl : string;
  error : string;
  isSupported : bool;
  mediaRecorderRef : option MediaRecorder;
  audioChunksRef : list Blob.Blob;
  timerRef : option positive;
  streamRef : option MediaStream
}.

(** The component as first rendered. *)
Definition initial : State :=
  {| isRecording := false; audioBlob := None; recordingTime := 0;
     audioUrl := ""; error := ""; isSupported := true;
     mediaRecorderRef := None; audioChunksRef := []; timerRef := None;
     streamRef := None |}.

Definition setIsRecording (v : bool) (s : State) : State :=
  {| isRecording := v; audioBlob := audioBlob s;
     recordingTime := recordingTime s; audioUrl := audioUrl s;
     error := error s; isSupported := isSupported s;
     mediaRecorderRef := mediaRecorderRef s;
     audioChunksRef := audioChunksRef s; timerRef := timerRef s;
     streamRef := streamRef s |}.

Definition setAudioBlob (v : option Blob.Blob) (s : State) : State :=
  {| isRecording := isRecording s; audioBlob := v;
     recordingTime := recordingTime s; audioUrl := audioUrl s;
     error := error s; isSupported := isSupported s;
     mediaRecorderRef := mediaRecorderRef s;
     audioChunksRef := audioChunksRef s; timerRef := timerRef s;
     streamRef := streamRef s |}.

Definition setRecordingTime (v : nat) (s : State) : State :=
  {| isRecording := isRecording s; audioBlob := audioBlob s;
     recordingTime := v; audioUrl := audioUrl s;
     error := error s; isSupported := isSupported s;
     mediaRecorderRef := mediaRecorderRef s;
     audioChunksRef := audioChunksRef s; timerRef := timerRef s;
     streamRef := streamRef s |}.

Definition setAudioUrl (v : string) (s : State) : State :=
  {| isRecording := isRecording s; audioBlob := audioBlob s;
     recordingTime := recordingTime s; audioUrl := v;
     error := error s; isSupported := isSupported s;
     mediaRecorderRef := mediaRecorderRef s;
     audioChunksRef := audioChunksRef s; timerRef := timerRef s;
     streamRef := streamRef s |}.

Definition setError (v : string) (s : State) : State :=
  {| isRecording := isRecording s; audioBlob := audioBlob s;
     recordingTime := recordingTime s; audioUrl := audioUrl s;
     error := v; isSupported := isSupported s;
     mediaRecorderRef := mediaRecorderRef s;
     audioChunksRef := audioChunksRef s; timerRef := timerRef s;
     streamRef := streamRef s |}.

Definition setIsSupported (v : bool) (s : State) : State :=
  {| isRecording := isRecording s; audioBlob := audioBlob s;
     recordingTime := recordingTime s; audioUrl := audioUrl s;
     error := error s; isSupported := v;
     mediaRecorderRef := mediaRecorderRef s;
     audioChunksRef := audioChunksRef s; timerRef := timerRef s;
     streamRef := streamRef s |}.

(** Assignments to [ref.current]. *)
Definition set_mediaRecorderRef (v : option MediaRecorder) (s : State) : State :=
  {| isRecording := isRecording s; audioBlob := audioBlob s;
     recordingTime := recordingTime s; audioUrl := audioUrl s;
     error := error s; isSupported := isSupported s;
     mediaRecorderRef := v;
     audioChunksRef := audioChunksRef s; timerRef := timerRef s;
     streamRef := streamRef s |}.

Definition set_audioChunksRef (v : list Blob.Blob) (s : State) : State :=
  {| isRecording := isRecording s; audioBlob := audioBlob s;
     recordingTime := recordingTime s; audioUrl := audioUrl s;
     error := error s; isSupported := isSupported s;
     mediaRecorderRef := mediaRecorderRef s;
     audioChunksRef := v; timerRef := timerRef s;
     streamRef := streamRef s |}.

Definition set_timerRef (v : option positive) (s : State) : State :=
  {| isRecording := isRecording s; audioBlob := audioBlob s;
     recordingTime := recordingTime s; audioUrl := audioUrl s;
     error := error s; isSupported := isSupported s;
     mediaRecorderRef := mediaRecorderRef s;
     audioChunksRef := audioChunksRef s; timerRef := v;
     streamRef := streamRef s |}.

Definition set_streamRef (v : option MediaStream) (s : State) : State :=
  {| isRecording := isRecording s; audioBlob := audioBlob s;
     recordingTime := recordingTime s; audioUrl := audioUrl s;
     error := error s; isSupported := isSupported s;
     mediaRecorderRef := mediaRecorderRef s;
     audioChunksRef := audioChunksRef s; timerRef := timerRef s;
     streamRef := v |}.

(** The component together with the platform it runs on. *)
Definition Sys : Type := State * Browser.

(** *** Computations that may throw

    The body of [startRecording] is a [try] block: a computation over
    [Sys] that ends with a value or with a thrown one, the state changes
    made before the throw being kept. *)
Definition M (A : Type) : Type := Sys → (Thrown + A) * Sys.

Definition ret {A} (a : A) : M A := λ w, (inr a, w).

Definition throw {A} (e : Thrown) : M A := λ w, (inl e, w).

Definition bind {A B} (m : M A) (k : A → M B) : M B :=
  λ w, match m w with
       | (inl e, w') => (inl e, w')
       | (inr a, w') => k a w'
       end.

(** [try { m } catch (e) { h e }] *)
Definition try_catch {A} (m : M A) (h : Thrown → M A) : M A :=
  λ w, match m w with
       | (inl e, w') => h e w'
       | (inr a, w') => (inr a, w')
       end.

Definition onState (f : State → State) : M unit :=
  λ w, (inr tt, (f (fst w), snd w)).

Definition onBrowser (f : Browser → Browser) : M unit :=
  λ w, (inr tt, (fst w, f (snd w))).

Definition fromBrowser {A} (f : Browser → A * Browser) : M A :=
  λ w, let (a, b) := f (snd w) in (inr a, (fst w, b)).

Notation "'let*' x ':=' m 'in' k" := (bind m (λ x, k))
  (at level 10, x name, m at level 100, k at level 200).
Notation "m ';;' k" := (bind m (λ _, k))
  (at level 100, k at level 200, right associativity).

(** *** Encoding negotiation *)

Definition types : list string :=
  [ "audio/webm;codecs=opus";
    "audio/webm";
    "audio/ogg;codecs=opus";
    "audio/mp4";
    "audio/wav" ].

(** The [for ... of] loop with its early [return]. *)
Fixpoint firstSupported (isTypeSupported : string → bool)
    (candidates : list string) : option string :=
  match candidates with
  | [] => None
  | type :: rest =>
      if isTypeSupported type then Some type
      else firstSupported isTypeSupported rest
  end.

Definition getSupportedMimeType (isTypeSupported : string → bool) : string :=
  match firstSupported isTypeSupported types with
  | Some type => type
  | None => "audio/webm"
  end.

(** *** startRecording *)

(** What the platform answers during one run of [startRecording]:
    the promise of [getUserMedia] rejects or resolves with a stream; the
    probe [MediaRecorder.isTypeSupported]; whether the constructor with
    the [mimeType] option throws; whether the constructor without options
    throws, or else the MIME type the platform picks; whether
    [mediaRecorder.start(100)] throws. *)
Record StartEnv := mkStartEnv {
  getUserMedia : Thrown + MediaStream;
  isTypeSupported : string → bool;
  newRecorderWithMime : option Thrown;
  newRecorderPlain : Thrown + string;
  recorderStart : option Thrown
}.

(** The synchronous prefix, up to the [await]: the error is cleared and
    the device request is issued. This is the platform on which
    [navigator.mediaDevices] exists; on the others the effect marks the
    component as unsupported and no start control is rendered. *)
Definition startRecording_request (w : Sys) : Sys :=
  (setError "" (fst w), requestUserMedia (snd w)).

(** The [await] resumes: with the stream, whose tracks capture, or by
    throwing the rejection. *)
Definition awaitUserMedia (e : StartEnv) : M MediaStream :=
  onBrowser settleUserMedia ;;
  match getUserMedia e with
  | inl err => throw err
  | inr stream => onBrowser (startTracks stream) ;; ret stream
  end.

Definition newMediaRecorderWithMime (e : StartEnv) (type : string) : M MediaRecorder :=
  match newRecorderWithMime e with
  | Some err => throw err
  | None => ret {| mimeType := type; state := inactive |}
  end.

Definition newMediaRecorderPlain (e : StartEnv) : M MediaRecorder :=
  match newRecorderPlain e with
  | inl err => throw err
  | inr type => ret {| mimeType := type; state := inactive |}
  end.

(** [mediaRecorder.start(100)]; the object is the one behind the ref. *)
Definition start (e : StartEnv) (mediaRecorder : MediaRecorder) : M unit :=
  match recorderStart e with
  | Some err => throw err
  | None =>
      onState (set_mediaRecorderRef
                 (Some {| mimeType := mimeType mediaRecorder; state := recording |}))
  end.

(** The [try] block after the [await]. *)
Definition startRecording_try (e : StartEnv) : M unit :=
  let* stream := awaitUserMedia e in
  onState (set_streamRef (Some stream)) ;;
  let audioTracks := getAudioTracks stream in
  (if length audioTracks =? 0
   then throw (newError "No audio tracks found in media stream")
   else ret tt) ;;
  let mimeType := getSupportedMimeType (isTypeSupported e) in
  let* mediaRecorder :=
    try_catch (newMediaRecorderWithMime e mimeType)
              (λ _, newMediaRecorderPlain e) in
  onState (set_mediaRecorderRef (Some mediaRecorder)) ;;
  onState (set_audioChunksRef []) ;;
  start e mediaRecorder ;;
  onState (setIsRecording true) ;;
  onState (setRecordingTime 0) ;;
  let* id := fromBrowser setInterval in
  onState (set_timerRef (Some id)).

(** The message the [catch] block builds. *)
Definition startErrorMessage (error : Thrown) : string :=
  let errorMessage := "Error accessing microphone. " in
  if instanceofError error then
    if String.eqb (name error) "NotAllowedError" then
      errorMessage +:+ "Please allow microphone access and try again."
    else if String.eqb (name error) "NotFoundError" then
      errorMessage +:+ "No microphone found. Please connect a microphone."
    else if String.eqb (name error) "NotSupportedError" then
      errorMessage +:+ "Audio recording is not supported in this browser."
    else if String.eqb (name error) "NotReadableError" then
      errorMessage +:+ "Microphone is being used by another application."
    else
      errorMessage +:+ message error
  else
    errorMessage +:+ "Please check your microphone permissions.".

Definition startRecording_catch (error : Thrown) : M unit :=
  onState (setError (startErrorMessage error)) ;;
  onState (setIsRecording false).

(** The continuation of [startRecording] once the request settles. *)
Definition startRecording_resume (e : StartEnv) (w : Sys) : Sys :=
  snd (try_catch (startRecording_try e) startRecording_catch w).

(** One whole run, nothing interleaved while the request is pending. *)
Definition startRecording (e : StartEnv) (w : Sys) : Sys :=
  startRecording_resume e (startRecording_request w).

(** *** Recorder events *)

(** [event.data && event.data.size > 0]; [event.data] is always a blob. *)
Definition nonEmpty (data : Blob.Blob) : bool := 0 <? Blob.size data.

(** [mediaRecorder.ondataavailable], with [event.data]. *)
Definition ondataavailable (data : Blob.Blob) (s : State) : State :=
  if nonEmpty data
  then set_audioChunksRef (audioChunksRef s ++ [data]) s
  else s.

(** [audioChunksRef.current.reduce((sum, chunk) => sum + chunk.size, 0)] *)
Definition totalSize (chunks : list Blob.Blob) : nat :=
  foldl (λ sum chunk, sum + Blob.size chunk) 0 chunks.

(** [audioChunksRef.current[0]?.type || 'audio/webm'] *)
Definition firstChunkType (chunks : list Blob.Blob) : string :=
  match chunks !! 0 with
  | Some chunk => or_else (Blob.type chunk) "audio/webm"
  | None => "audio/webm"
  end.

(** [mediaRecorder.onstop]; [suffix] is the platform's choice for the
    object URL, should one be created. *)
Definition onstop (suffix : string) (w : Sys) : Sys :=
  let (s, b) := w in
  if length (audioChunksRef s) =? 0 then
    (setError "No audio data was recorded. Please try again." s, b)
  else if totalSize (audioChunksRef s) =? 0 then
    (setError "Recorded audio file is empty. Please check your microphone and try again." s, b)
  else
    let audioBlob := Blob.new (audioChunksRef s) (firstChunkType (audioChunksRef s)) in
    let (s1, b1) :=
      if 0 <? Blob.size audioBlob then
        let (url, b') := createObjectURL suffix b in
        (setAudioUrl url (setAudioBlob (Some audioBlob) s), b')
      else
        (setError "Failed to create audio file. Please try recording again." s, b) in
    match streamRef s1 with
    | Some stream => (set_streamRef None s1, stopTracks stream b1)
    | None => (s1, b1)
    end.

(** The data-available events of one recording, in emission order. *)
Definition deliver (fragments : list Blob.Blob) (s : State) : State :=
  foldl (λ acc data, ondataavailable data acc) s fragments.

(** [mediaRecorder.onerror] *)
Definition onerror (s : State) : State :=
  setIsRecording false
    (setError "Recording error occurred. Please try again." s).

(** One firing of the interval callback. *)
Definition tick (s : State) : State :=
  setRecordingTime (recordingTime s + 1) s.

(** *** The other handlers *)

Definition stopRecording (w : Sys) : Sys :=
  let (s, b) := w in
  match mediaRecorderRef s with
  | Some mediaRecorder =>
      if isRecording s then
        let (s1, b1) :=
          match timerRef s with
          | Some id => (set_timerRef None s, clearInterval id b)
          | None => (s, b)
          end in
        let s2 := setIsRecording false s1 in
        match state mediaRecorder with
        | recording =>
            (set_mediaRecorderRef
               (Some {| mimeType := mimeType mediaRecorder; state := inactive |}) s2,
             b1)
        | _ => (s2, b1)
        end
      else (s, b)
  | None => (s, b)
  end.

(** [handleUpload]: the blob passed to [onRecordingComplete], if any;
    the component itself is not changed. *)
Definition handleUpload (s : State) : option Blob.Blob := audioBlob s.

(** One whole recording: the start, the chunks delivered while recording,
    the stop request, the chunks the recorder still flushes, and the stop
    event. *)
Definition session (e : StartEnv) (before after : list Blob.Blob)
    (suffix : string) (w : Sys) : Sys :=
  let started := startRecording e w in
  let stopped := stopRecording (deliver before (fst started), snd started) in
  onstop suffix (deliver after (fst stopped), snd stopped).

Definition resetRecording (w : Sys) : Sys :=
  let (s, b) := w in
  let s1 := setAudioBlob None s in
  let b1 := if truthy (audioUrl s) then revokeObjectURL (audioUrl s) b else b in
  (set_audioChunksRef []
     (setError "" (setRecordingTime 0 (setAudioUrl "" s1))),
   b1).

(** *** The effect and its cleanup *)

(** The effect body; [supported] is the outcome of the capability test
    [navigator.mediaDevices && getUserMedia && window.MediaRecorder]. *)
Definition effect (supported : bool) (s : State) : State :=
  if negb supported then
    setError "Audio recording is not supported in this browser. Please use Chrome, Firefox, or Safari."
      (setIsSupported false s)
  else s.

(** The cleanup the effect returns; [audioUrl] is the value the effect
    closed over, the refs are read when the cleanup runs. *)
Definition cleanup (audioUrl : string) (w : Sys) : Sys :=
  let (s, b) := w in
  let b1 := match timerRef s with
            | Some id => clearInterval id b
            | None => b
            end in
  let b2 := if truthy audioUrl then revokeObjectURL audioUrl b1 else b1 in
  let b3 := match streamRef s with
            | Some stream => stopTracks stream b2
            | None => b2
            end in
  (s, b3).

(** Teardown of the component: the effect was last set up with the
    current [audioUrl], its only dependency. *)
Definition unmount (w : Sys) : Sys := cleanup (audioUrl (fst w)) w.

(** *** What is rendered *)

Inductive Control :=
  | UnsupportedNotice | ErrorBanner | StartButton | StopButton | ResultPanel.

Definition render (s : State) : list Control :=
  if negb (isSupported s) then [UnsupportedNotice]
  else
    (if truthy (error s) then [ErrorBanner] else []) ++
    (if negb (isRecording s) && negb (bool_decide (is_Some (audioBlob s)))
     then [StartButton] else []) ++
    (if isRecording s then [StopButton] else []) ++
    (if bool_decide (is_Some (audioBlob s)) && truthy (audioUrl s)
     then [ResultPanel] else []).

(** *** The session states of the design

    The component has no state variable of its own for the session; the
    five states are read off the cells the rendering tests, and off the
    pending device requests for [Requesting]. *)
Inductive Phase := Idle | Requesting | Recording | Stopped | Error.

Definition phase (w : Sys) : Phase :=
  let (s, b) := w in
  if isRecording s then Recording
  else if 0 <? pendingRequests b then Requesting
  else if bool_decide (is_Some (audioBlob s)) then Stopped
  else if truthy (error s) then Error
  else Idle.

End AudioRecorder.

(** ** The data layer ([lib/supabase.ts]) *)

Module Supabase.

(** [User]; [user_metadata] is only displayed and is left out. *)
Record User := mkUser {
  id : string;
  email : option string
}.

(** A [RecordingLog] as the client builds it for insertion. *)
Record RecordingLog := mkRecordingLog {
  candidate_name : string;
  question_label : string;
  question_position : option Z;
  user_id : option string;
  file_url : string
}.

(** [user?.email === 'banuweb3@gmail.com'] *)
Definition isAdmin (user : option User) : bool :=
  match user with
  | Some u =>
      match email u with
      | Some address => String.eqb address "banuweb3@gmail.com"
      | None => false
      end
  | None => false
  end.

(** A query as the builder accumulates it: table, selected columns,
    equality filters in the order added, ordering column with its
    [ascending] flag. *)
Record Query := mkQuery {
  from : string;
  select : string;
  filters : list (string * string);
  order : option (string * bool)
}.

(** [query.eq(column, value)] *)
Definition eq (column value : string) (q : Query) : Query :=
  {| from := from q; select := select q;
     filters := filters q ++ [(column, value)]; order := order q |}.

(** [query.order(column, { ascending })] *)
Definition order_by (column : string) (ascending : bool) (q : Query) : Query :=
  {| from := from q; select := select q; filters := filters q;
     order := Some (column, ascending) |}.

(** The text columns of a row. *)
Definition column (name : string) (row : RecordingLog) : option string :=
  if String.eqb name "candidate_name" then Some (candidate_name row)
  else if String.eqb name "question_label" then Some (question_label row)
  else if String.eqb name "file_url" then Some (file_url row)
  else if String.eqb name "user_id" then user_id row
  else None.

(** A row passes the query when every equality filter holds on it. *)
Definition passes (q : Query) (row : RecordingLog) : bool :=
  forallb (λ f, bool_decide (column (fst f) row = Some (snd f))) (filters q).

End Supabase.

(** ** The recordings list ([RecordingsList.tsx]) *)

Module RecordingsList.
Import Supabase.

(** The query [fetchRecordings] sends for the signed-in [user]. *)
Definition fetchRecordings_query (user : User) : Query :=
  let query := {| from := "recording_logs"; select := "*";
                  filters := []; order := None |} in
  let query := if negb (isAdmin (Some user))
               then eq "user_id" (id user) query
               else query in
  order_by "created_at" false query.

End RecordingsList.

(** ** The upload workflow ([App.tsx]) *)

Module App.
Import JS Supabase.

(** The values ['record'] and ['list'] of [currentView]. *)
Inductive View := view_record | view_list.

Record State := mkState {
  user : option User;
  loading : bool;
  currentView : View;
  candidateName : string;
  questionLabel : string;
  questionPosition : Z;
  isUploading : bool;
  uploadSuccess : bool;
  uploadError : string
}.

Definition setCandidateName (v : string) (a : State) : State :=
  {| user := user a; loading := loading a; currentView := currentView a;
     candidateName := v; questionLabel := questionLabel a;
     questionPosition := questionPosition a; isUploading := isUploading a;
     uploadSuccess := uploadSuccess a; uploadError := uploadError a |}.

Definition setQuestionLabel (v : string) (a : State) : State :=
  {| user := user a; loading := loading a; currentView := currentView a;
     candidateName := candidateName a; questionLabel := v;
     questionPosition := questionPosition a; isUploading := isUploading a;
     uploadSuccess := uploadSuccess a; uploadError := uploadError a |}.

Definition setQuestionPosition (v : Z) (a : State) : State :=
  {| user := user a; loading := loading a; currentView := currentView a;
     candidateName := candidateName a; questionLabel := questionLabel a;
     questionPosition := v; isUploading := isUploading a;
     uploadSuccess := uploadSuccess a; uploadError := uploadError a |}.

Definition setIsUploading (v : bool) (a : State) : State :=
  {| user := user a; loading := loading a; currentView := currentView a;
     candidateName := candidateName a; questionLabel := questionLabel a;
     questionPosition := questionPosition a; isUploading := v;
     uploadSuccess := uploadSuccess a; uploadError := uploadError a |}.

Definition setUploadSuccess (v : bool) (a : State) : State :=
  {| user := user a; loading := loading a; currentView := currentView a;
     candidateName := candidateName a; questionLabel := questionLabel a;
     questionPosition := questionPosition a; isUploading := isUploading a;
     uploadSuccess := v; uploadError := uploadError a |}.

Definition setUploadError (v : string) (a : State) : State :=
  {| user := user a; loading := loading a; currentView := currentView a;
     candidateName := candidateName a; questionLabel := questionLabel a;
     questionPosition := questionPosition a; isUploading := isUploading a;
     uploadSuccess := uploadSuccess a; uploadError := v |}.

(** One call of [storage.from('recordings').upload(path, body, options)]. *)
Record Upload := mkUpload {
  bucket : string;
  path : string;
  body : Blob.Blob;
  cacheControl : string;
  upsert : bool
}.

(** What the workflow has caused outside the component: the uploads the
    storage accepted, the rows the table accepted, and the time-outs
    scheduled to clear the success notice. *)
Record Backend := mkBackend {
  uploads : list Upload;
  recording_logs : list RecordingLog;
  timeouts : nat
}.

(** What the outside answers during one run: the identifier [uuidv4()]
    returns, the [error] of the upload ([None]: accepted), the public URL
    of a path, the [error] of the insert. *)
Record UploadEnv := mkUploadEnv {
  uuidv4 : string;
  uploadResult : option Thrown;
  getPublicUrl : string → string;
  insertResult : option Thrown
}.

(** The [catch] block. *)
Definition uploadFailed (error : Thrown) (a : State) : State :=
  setUploadError
    (if instanceofError error then message error
     else "Failed to upload recording") a.

Definition handleRecordingComplete (e : UploadEnv) (audioBlob : Blob.Blob)
    (w : State * Backend) : State * Backend :=
  let (a, be) := w in
  if negb (truthy (trim (candidateName a))) then
    (setUploadError "Please enter candidate name" a, be)
  else if negb (truthy (trim (questionLabel a))) then
    (setUploadError "Please enter question label" a, be)
  else
    let a1 := setUploadSuccess false (setUploadError "" (setIsUploading true a)) in
    let fileId := uuidv4 e in
    let fileName := fileId +:+ ".wav" in
    let filePath := "recordings/" +:+ trim (candidateName a) +:+ "/" +:+ fileName in
    let wavBlob := Blob.new [audioBlob] "audio/wav" in
    let (a2, be2) :=
      match uploadResult e with
      | Some uploadError => (uploadFailed uploadError a1, be)
      | None =>
          let be1 :=
            {| uploads := uploads be ++
                 [ {| bucket := "recordings"; path := filePath; body := wavBlob;
                      cacheControl := "3600"; upsert := false |} ];
               recording_logs := recording_logs be; timeouts := timeouts be |} in
          let publicUrl := getPublicUrl e filePath in
          let recordingData :=
            {| candidate_name := trim (candidateName a);
               question_label := trim (questionLabel a);
               question_position := Some (questionPosition a);
               user_id := id <$> user a;
               file_url := publicUrl |} in
          match insertResult e with
          | Some dbError => (uploadFailed dbError a1, be1)
          | None =>
              (setQuestionPosition 1
                 (setQuestionLabel ""
                    (setCandidateName "" (setUploadSuccess true a1))),
               {| uploads := uploads be1;
                  recording_logs := recording_logs be1 ++ [recordingData];
                  timeouts := S (timeouts be1) |})
          end
      end in
    (setIsUploading false a2, be2).

(** The scheduled time-out fires. *)
Definition clearSuccess (a : State) : State := setUploadSuccess false a.

(** The recorder's Upload button: [handleUpload] hands the artifact, when
    there is one, to [handleRecordingComplete]; the recorder keeps it. *)
Definition uploadClicked (e : UploadEnv) (r : AudioRecorder.State)
    (w : State * Backend) : AudioRecorder.State * (State * Backend) :=
  match AudioRecorder.handleUpload r with
  | Some audioBlob => (r, handleRecordingComplete e audioBlob w)
  | None => (r, w)
  end.

End App.

(** ** Concrete scenarios *)

Module Scenario.
Import JS Browser AudioRecorder.

(** A platform with nothing allocated. *)
Definition browser0 : Browser :=
  {| liveTracks := ∅; intervals := ∅; nextIntervalId := 1;
     objectUrls := ∅; deviceRequests := 0; pendingRequests := 0 |}.

(** A microphone stream with one audio track. *)
Definition microphone : MediaStream :=
  {| getTracks := [ {| track_id := 7; kind := audio |} ] |}.

(** A platform that grants the microphone and records only [audio/mp4]. *)
Definition granted : StartEnv :=
  {| getUserMedia := inr microphone;
     isTypeSupported := λ type, String.eqb type "audio/mp4";
     newRecorderWithMime := None;
     newRecorderPlain := inr "audio/mp4";
     recorderStart := None |}.

(** The user denies the permission. *)
Definition denied : StartEnv :=
  {| getUserMedia :=
       inl {| instanceofError := true; name := "NotAllowedError";
              message := "Permission denied" |};
     isTypeSupported := λ _, true;
     newRecorderWithMime := None;
     newRecorderPlain := inr "audio/webm";
     recorderStart := None |}.

(** The microphone is granted, then [mediaRecorder.start] throws. *)
Definition startThrows : StartEnv :=
  {| getUserMedia := inr microphone;
     isTypeSupported := λ type, String.eqb type "audio/mp4";
     newRecorderWithMime := None;
     newRecorderPlain := inr "audio/mp4";
     recorderStart :=
       Some {| instanceofError := true; name := "NotSupportedError";
               message := "The stream cannot be recorded" |} |}.

(** A fragment of [n] bytes with the given type. *)
Definition fragment (n : nat) (type : string) : Blob.Blob :=
  {| Blob.bytes := replicate n Byte.x2a; Blob.type := type |}.

(** A session recording with one chunk in the buffer. *)
Definition recordingOneChunk : Sys :=
  let w := startRecording granted (initial, browser0) in
  (ondataavailable (fragment 10 "audio/mp4") (fst w), snd w).

(** A session stopped with nothing delivered, before the stop event. *)
Definition stoppedEmpty : Sys :=
  stopRecording (startRecording granted (initial, browser0)).

(** A session finalized with fragments of 10, 0 and 20 bytes, the last
    one flushed after the stop request. *)
Definition finalized : Sys :=
  session granted
    [fragment 10 "audio/mp4"; fragment 0 "audio/mp4"] [fragment 20 "audio/mp4"]
    "5b1c" (initial, browser0).

(** A session finalized with one fragment that carries no type. *)
Definition finalizedUntyped : Sys :=
  session granted [fragment 10 ""] [] "5b1c" (initial, browser0).

(** The artifact of the session [finalized]. *)
Definition artifact : Blob.Blob := fragment 30 "audio/mp4".

(** The form of the upload workflow and what the outside answers. *)
Definition form (candidateName questionLabel : string) : App.State :=
  {| App.user := Some {| Supabase.id := "u-1"; Supabase.email := Some "ann@example.org" |};
     App.loading := false; App.currentView := App.view_record;
     App.candidateName := candidateName; App.questionLabel := questionLabel;
     App.questionPosition := 3; App.isUploading := false;
     App.uploadSuccess := false; App.uploadError := "" |}.

Definition backend0 : App.Backend :=
  {| App.uploads := []; App.recording_logs := []; App.timeouts := 0 |}.

Definition accepted : App.UploadEnv :=
  {| App.uuidv4 := "0b7e";
     App.uploadResult := None;
     App.getPublicUrl := λ path, "https://storage.example/" +:+ path;
     App.insertResult := None |}.

End Scenario.

(** ** The elapsed-time display ([formatTime] of [AudioRecorder.tsx]) *)

Module Display.

(** The first [n] characters of [padString] repeated; [rest] is what is
    left of the current copy. *)
Fixpoint filler (n : nat) (padString rest : string) : string :=
  match n with
  | 0 => ""
  | S n' =>
      match rest with
      | String c rest' => String c (filler n' padString rest')
      | "" =>
          match padString with
          | String c rest' => String c (filler n' padString rest')
          | "" => ""
          end
      end
  end.

(** [s.padStart(targetLength, padString)] *)
Definition padStart (targetLength : nat) (padString s : string) : string :=
  if targetLength <=? String.length s then s
  else filler (targetLength - String.length s) padString padString +:+ s.

(** [secs.toString().padStart(2, '0')]; [toString] prints a non-negative
    integer in decimal. *)
Definition secondsField (secs : nat) : string := padStart 2 "0" (pretty secs).

(** [formatTime(seconds)]; [seconds] is the elapsed-time counter, a
    non-negative integer. *)
Definition formatTime (seconds : nat) : string :=
  let mins := seconds / 60 in
  let secs := seconds mod 60 in
  pretty mins +:+ ":" +:+ secondsField secs.

End Display.

(** ** The recorder as an event-driven component *)

Module RecorderEvents.
Import JS Browser AudioRecorder.

(** What can happen to a mounted recorder: a click on a control, the
    settling of a device request, an event of the media recorder, a firing
    of the interval, a run of the effect or of its cleanup. No event is
    tied to what is rendered. *)
Inductive Event :=
  | StartClicked
  | StartSettled (e : StartEnv)
  | DataAvailable (data : Blob.Blob)
  | StopClicked
  | RecorderStopped (suffix : string)
  | RecorderError
  | IntervalFired
  | ResetClicked
  | EffectRun (supported : bool)
  | CleanupRun (audioUrl : string).

Definition step (event : Event) (w : Sys) : Sys :=
  match event with
  | StartClicked => startRecording_request w
  | StartSettled e => startRecording_resume e w
  | DataAvailable data => (ondataavailable data (fst w), snd w)
  | StopClicked => stopRecording w
  | RecorderStopped suffix => onstop suffix w
  | RecorderError => (onerror (fst w), snd w)
  | IntervalFired => (tick (fst w), snd w)
  | ResetClicked => resetRecording w
  | EffectRun supported => (effect supported (fst w), snd w)
  | CleanupRun audioUrl => cleanup audioUrl w
  end.

(** The events handled one after the other. *)
Definition run (events : list Event) (w : Sys) : Sys :=
  foldl (λ acc event, step event acc) w events.

(** What holds of the component between any two events: the buffer holds
    no empty chunk; an artifact is held exactly when a preview URL is; an
    artifact has bytes; the error message is neither of the two messages
    that the stop handler sets after its first test. *)
Definition consistent (s : State) : Prop :=
  Forall (λ chunk, nonEmpty chunk = true) (audioChunksRef s) ∧
  (is_Some (audioBlob s) ↔ audioUrl s ≠ "") ∧
  (∀ artifact, audioBlob s = Some artifact → 0 < Blob.size artifact) ∧
  error s ≠ "Recorded audio file is empty. Please check your microphone and try again." ∧
  error s ≠ "Failed to create audio file. Please try recording again.".

End RecorderEvents.

(** ** The list component ([RecordingsList.tsx]) *)

Module ListView.
Import JS Supabase.

Record State := mkState {
  recordings : list RecordingLog;
  loading : bool;
  error : string
}.

(** The [{ data, error }] the awaited query resolves with. *)
Record Response := mkResponse {
  data : option (list RecordingLog);
  failure : option Thrown
}.

Definition fetchRecordings (response : Response) (st : State) : State :=
  let st1 := {| recordings := recordings st; loading := true; error := "" |} in
  let st2 :=
    match failure response with
    | Some _ =>
        {| recordings := recordings st1; loading := loading st1;
           error := "Failed to load recordings. Please try again." |}
    | None =>
        {| recordings := default [] (data response); loading := loading st1;
           error := error st1 |}
    end in
  {| recordings := recordings st2; loading := false; error := error st2 |}.

(** The heading of the list and the notice shown when it is empty. *)
Definition heading (user : User) : string :=
  if isAdmin (Some user) then "All Recordings" else "My Recordings".

Definition emptyNotice (user : User) : string :=
  if isAdmin (Some user) then "No recordings found in the system."
  else "No recordings found. Upload your first recording above!".

(** The store answers a query with the rows that pass it, in the order the
    query asks for, which is an order of the passing rows. *)
Definition answers (q : Query) (table : list RecordingLog)
    (response : Response) : Prop :=
  failure response = None ∧
  ∃ rows, data response = Some rows ∧ rows ≡ₚ List.filter (passes q) table.

End ListView.

(** ** The shell of the application ([App.tsx]) *)

Module AppShell.
Import JS Supabase App.

Definition setUser (v : option User) (a : State) : State :=
  {| user := v; loading := loading a; currentView := currentView a;
     candidateName := candidateName a; questionLabel := questionLabel a;
     questionPosition := questionPosition a; isUploading := isUploading a;
     uploadSuccess := uploadSuccess a; uploadError := uploadError a |}.

Definition setLoading (v : bool) (a : State) : State :=
  {| user := user a; loading := v; currentView := currentView a;
     candidateName := candidateName a; questionLabel := questionLabel a;
     questionPosition := questionPosition a; isUploading := isUploading a;
     uploadSuccess := uploadSuccess a; uploadError := uploadError a |}.

Definition setCurrentView (v : View) (a : State) : State :=
  {| user := user a; loading := loading a; currentView := v;
     candidateName := candidateName a; questionLabel := questionLabel a;
     questionPosition := questionPosition a; isUploading := isUploading a;
     uploadSuccess := uploadSuccess a; uploadError := uploadError a |}.

(** The callback of [getSession().then] and of [onAuthStateChange]:
    [session?.user || null], then [setLoading(false)]. *)
Definition onSession (sessionUser : option User) (a : State) : State :=
  setLoading false (setUser sessionUser a).

(** What [App] returns: the loading notice, the sign-in component, or the
    main screen with the admin mark of the header, the label of the list
    tab and the view shown. *)
Inductive Screen :=
  | LoadingNotice
  | SignIn
  | Main (adminMark : bool) (listTab : string) (view : View).

Definition render (a : State) : Screen :=
  if loading a then LoadingNotice
  else
    match user a with
    | None => SignIn
    | Some u =>
        Main (isAdmin (Some u))
             (if isAdmin (Some u) then "All Recordings" else "My Recordings")
             (currentView a)
    end.

End AppShell.

(** ** The row-level policies ([supabase/migrations]) *)

Module Policies.
Import Supabase.

Inductive Command := SELECT | INSERT.

(** The [TO] clause of a policy; [public] stands for every role. *)
Inductive Grantee := public | authenticated.

(** The role of a session. *)
Inductive Role := anon | signed_in.

(** The [USING] and [WITH CHECK] expressions the migrations write:
    [true]; [auth.uid() = user_id]; the [EXISTS] sub-query over
    [auth.users] for the row of [auth.uid()] with a given email;
    [bucket_id = '...']. *)
Inductive Expr :=
  | ETrue
  | UidIsUserId
  | UidHasEmail (address : string)
  | BucketIs (bucket : string).

Record Policy := mkPolicy {
  policy_name : string;
  on_table : string;
  for_command : Command;
  to : Grantee;
  expr : Expr
}.

(** A row of [recording_logs], or a row of [storage.objects] with its
    [bucket_id]. *)
Inductive Row :=
  | LogRow (row : RecordingLog)
  | ObjectRow (bucket_id : string).

(** What a session brings: its role, [auth.uid()], and the table
    [auth.users]. *)
Record Session := mkSession {
  role : Role;
  uid : option string;
  users : list User
}.

(** The value of an expression on a row; a comparison with a null operand
    does not hold. *)
Definition holds (x : Expr) (ses : Session) (r : Row) : bool :=
  match x with
  | ETrue => true
  | UidIsUserId =>
      match r, uid ses with
      | LogRow row, Some u => bool_decide (user_id row = Some u)
      | _, _ => false
      end
  | UidHasEmail address =>
      match uid ses with
      | Some u =>
          existsb (λ usr, bool_decide (id usr = u) &&
                          bool_decide (email usr = Some address))
                  (users ses)
      | None => false
      end
  | BucketIs bucket =>
      match r with
      | ObjectRow b => bool_decide (b = bucket)
      | LogRow _ => false
      end
  end.

Record Database := mkDatabase {
  tables : list string;
  columns : list (string * string);
  row_security : list string;
  policies : list Policy;
  buckets : list (string * bool)
}.

Definition empty : Database :=
  {| tables := ["storage.objects"; "storage.buckets"; "auth.users"];
     columns := []; row_security := ["storage.objects"];
     policies := []; buckets := [] |}.

Inductive Statement :=
  | CreateTableIfNotExists (table : string) (cols : list string)
  | EnableRowSecurity (table : string)
  | CreatePolicy (p : Policy)
  | DropPolicyIfExists (name table : string)
  | AddColumnIfNotExists (table column : string)
  | InsertBucketOnConflictDoNothing (bucket : string) (is_public : bool).

Definition hasPolicy (name table : string) (db : Database) : bool :=
  existsb (λ p, bool_decide (policy_name p = name) &&
                bool_decide (on_table p = table)) (policies db).

Definition hasTable (table : string) (db : Database) : bool :=
  bool_decide (table ∈ tables db).

(** One statement; [None] when the statement raises an error. *)
Definition exec (st : Statement) (db : Database) : option Database :=
  match st with
  | CreateTableIfNotExists table cols =>
      if hasTable table db then Some db
      else Some {| tables := tables db ++ [table];
                   columns := columns db ++ ((λ c, (table, c)) <$> cols);
                   row_security := row_security db;
                   policies := policies db; buckets := buckets db |}
  | EnableRowSecurity table =>
      if hasTable table db then
        Some {| tables := tables db; columns := columns db;
                row_security := row_security db ++ [table];
                policies := policies db; buckets := buckets db |}
      else None
  | CreatePolicy p =>
      if hasTable (on_table p) db && negb (hasPolicy (policy_name p) (on_table p) db)
      then Some {| tables := tables db; columns := columns db;
                   row_security := row_security db;
                   policies := policies db ++ [p]; buckets := buckets db |}
      else None
  | DropPolicyIfExists name table =>
      if hasTable table db then
        Some {| tables := tables db; columns := columns db;
                row_security := row_security db;
                policies :=
                  List.filter
                    (λ p, negb (bool_decide (policy_name p = name) &&
                                bool_decide (on_table p = table)))
                    (policies db);
                buckets := buckets db |}
      else None
  | AddColumnIfNotExists table column =>
      if bool_decide ((table, column) ∈ columns db) then Some db
      else if hasTable table db then
        Some {| tables := tables db; columns := columns db ++ [(table, column)];
                row_security := row_security db;
                policies := policies db; buckets := buckets db |}
      else None
  | InsertBucketOnConflictDoNothing bucket is_public =>
      if existsb (λ b, bool_decide (fst b = bucket)) (buckets db) then Some db
      else Some {| tables := tables db; columns := columns db;
                   row_security := row_security db;
                   policies := policies db;
                   buckets := buckets db ++ [(bucket, is_public)] |}
  end.

(** A migration runs its statements in order and stops at the first
    error. *)
Fixpoint migrate (script : list Statement) (db : Database) : option Database :=
  match script with
  | [] => Some db
  | st :: rest =>
      match exec st db with
      | Some db' => migrate rest db'
      | None => None
      end
  end.

(** [20250804075923_soft_temple.sql] *)
Definition soft_temple : list Statement :=
  [ CreateTableIfNotExists "recording_logs"
      ["id"; "candidate_name"; "question_label"; "file_url"; "created_at"];
    EnableRowSecurity "recording_logs";
    CreatePolicy {| policy_name := "Public read access";
                    on_table := "recording_logs"; for_command := SELECT;
                    to := public; expr := ETrue |};
    CreatePolicy {| policy_name := "Public insert access";
                    on_table := "recording_logs"; for_command := INSERT;
                    to := public; expr := ETrue |};
    InsertBucketOnConflictDoNothing "recordings" true;
    CreatePolicy {| policy_name := "Public read access to recordings";
                    on_table := "storage.objects"; for_command := SELECT;
                    to := public; expr := BucketIs "recordings" |};
    CreatePolicy {| policy_name := "Public upload to recordings";
                    on_table := "storage.objects"; for_command := INSERT;
                    to := public; expr := BucketIs "recordings" |} ].

(** [20250805070632_floating_unit.sql] *)
Definition floating_unit : list Statement :=
  [ AddColumnIfNotExists "recording_logs" "user_id";
    AddColumnIfNotExists "recording_logs" "question_position";
    DropPolicyIfExists "Public read access" "recording_logs";
    DropPolicyIfExists "Public insert access" "recording_logs";
    CreatePolicy {| policy_name := "Users can insert their own recordings";
                    on_table := "recording_logs"; for_command := INSERT;
                    to := authenticated; expr := UidIsUserId |};
    CreatePolicy {| policy_name := "Users can read their own recordings";
                    on_table := "recording_logs"; for_command := SELECT;
                    to := authenticated; expr := UidIsUserId |};
    CreatePolicy {| policy_name := "Admin can read all recordings";
                    on_table := "recording_logs"; for_command := SELECT;
                    to := authenticated;
                    expr := UidHasEmail "banuweb3@gmail.com" |};
    CreatePolicy {| policy_name := "Public can insert recordings";
                    on_table := "recording_logs"; for_command := INSERT;
                    to := public; expr := ETrue |};
    CreatePolicy {| policy_name := "Public can read all recordings";
                    on_table := "recording_logs"; for_command := SELECT;
                    to := public; expr := ETrue |} ].

(** A policy applies to a session when its grantee covers the role. *)
Definition applies (p : Policy) (ses : Session) : bool :=
  match to p, role ses with
  | public, _ => true
  | authenticated, signed_in => true
  | authenticated, anon => false
  end.

Definition sameCommand (c1 c2 : Command) : bool :=
  match c1, c2 with
  | SELECT, SELECT | INSERT, INSERT => true
  | _, _ => false
  end.

(** With row security enabled on the table, a command is let through on a
    row when some policy of the table for that command applies to the
    session and holds on the row; the policies are permissive. Without row
    security nothing is filtered. *)
Definition allowed (db : Database) (table : string) (c : Command)
    (ses : Session) (r : Row) : bool :=
  if bool_decide (table ∈ row_security db) then
    existsb (λ p, bool_decide (on_table p = table) &&
                  sameCommand (for_command p) c &&
                  applies p ses && holds (expr p) ses r)
            (policies db)
  else true.

End Policies.

(** ** Further scenarios *)

Module Cases.
Import JS Browser AudioRecorder.

(** The recorder reports an error while the session of the scenario
    records. *)
Definition failedWhileRecording : Sys :=
  (onerror (fst Scenario.recordingOneChunk), snd Scenario.recordingOneChunk).

(** The session of the scenario, stopped with its chunk in the buffer. *)
Definition stoppedOneChunk : Sys := stopRecording Scenario.recordingOneChunk.

(** The recorder of the started session fires its stop event by itself,
    no stop having been requested: with nothing buffered, and with the
    chunk of the scenario buffered. *)
Definition stoppedByItself : Sys :=
  onstop "5b1c" (startRecording Scenario.granted (initial, Scenario.browser0)).

Definition stoppedByItselfWithChunk : Sys :=
  onstop "5b1c" Scenario.recordingOneChunk.

(** A second request is answered with another stream. *)
Definition secondMicrophone : MediaStream :=
  {| getTracks := [ {| track_id := 8; kind := audio |} ] |}.

Definition grantedAgain : StartEnv :=
  {| getUserMedia := inr secondMicrophone;
     isTypeSupported := λ type, String.eqb type "audio/mp4";
     newRecorderWithMime := None;
     newRecorderPlain := inr "audio/mp4";
     recorderStart := None |}.

(** The start control is clicked once, and once more while the first
    request is pending. *)
Definition clickedTwice : Sys :=
  RecorderEvents.run [RecorderEvents.StartClicked; RecorderEvents.StartClicked]
    (initial, Scenario.browser0).

(** Both requests are then granted, in the order they were issued. *)
Definition doubleStart : Sys :=
  RecorderEvents.run
    [RecorderEvents.StartSettled Scenario.granted;
     RecorderEvents.StartSettled grantedAgain]
    clickedTwice.

(** The storage refuses the upload. *)
Definition refused : App.UploadEnv :=
  {| App.uuidv4 := "0b7e";
     App.uploadResult :=
       Some {| instanceofError := true; name := "StorageError";
               message := "The resource already exists" |};
     App.getPublicUrl := λ path, "https://storage.example/" +:+ path;
     App.insertResult := None |}.

(** The storage accepts the upload, the table refuses the row with an
    error object that is no [Error]. *)
Definition rowRefused : App.UploadEnv :=
  {| App.uuidv4 := "0b7e";
     App.uploadResult := None;
     App.getPublicUrl := λ path, "https://storage.example/" +:+ path;
     App.insertResult :=
       Some {| instanceofError := false; name := "";
               message := "new row violates row-level security policy" |} |}.

Definition ann : Supabase.User :=
  {| Supabase.id := "u-1"; Supabase.email := Some "ann@example.org" |}.

Definition rowOf (owner : option string) (name : string) : Supabase.RecordingLog :=
  {| Supabase.candidate_name := name; Supabase.question_label := "Q1";
     Supabase.question_position := Some 1%Z; Supabase.user_id := owner;
     Supabase.file_url := "https://storage.example/recordings/" +:+ name |}.

(** A table with a row of [ann], a row of another user and a row without
    owner. *)
Definition table : list Supabase.RecordingLog :=
  [rowOf (Some "u-1") "Ann"; rowOf (Some "u-2") "Bob"; rowOf None "Cy"].

Definition emptyList : ListView.State :=
  {| ListView.recordings := []; ListView.loading := false;
     ListView.error := "" |}.

End Cases.

(** * Properties *)

Section Blobs.
Import Blob.

Lemma size_new (parts : list Blob) (ty : string) :
  size (new parts ty) = sum_list (size <$> parts).
Proof.
  unfold size, new; simpl.
  induction parts as [|p parts IH]; [done|].
  rewrite !fmap_cons; simpl. rewrite length_app. by f_equal.
Qed.

Lemma totalSize_sum (chunks : list Blob) :
  AudioRecorder.totalSize chunks = sum_list (size <$> chunks).
Proof.
  unfold AudioRecorder.totalSize.
  assert (∀ n, foldl (λ sum chunk, sum + size chunk) n chunks
               = n + sum_list (size <$> chunks)) as H.
  { induction chunks as [|c chunks IH]; intros n; csimpl; [lia|].
    rewrite IH. lia. }
  by rewrite H.
Qed.

(** Dropping the empty fragments changes neither the total size nor the
    concatenated bytes. *)
Lemma sum_nonempty (fragments : list Blob) :
  sum_list (size <$> List.filter AudioRecorder.nonEmpty fragments)
  = sum_list (size <$> fragments).
Proof.
  unfold AudioRecorder.nonEmpty.
  induction fragments as [|f fragments IH]; csimpl; [done|].
  destruct (0 <? size f) eqn:E; csimpl; rewrite IH; [done|].
  apply Nat.ltb_ge in E. lia.
Qed.

Lemma concat_nonempty (fragments : list Blob) :
  concat (bytes <$> List.filter AudioRecorder.nonEmpty fragments)
  = concat (bytes <$> fragments).
Proof.
  unfold AudioRecorder.nonEmpty.
  induction fragments as [|f fragments IH]; csimpl; [done|].
  destruct (0 <? size f) eqn:E; csimpl; rewrite IH; [done|].
  apply Nat.ltb_ge in E. unfold size in E.
  destruct (bytes f); simpl in *; [done|lia].
Qed.

End Blobs.

(** ** The recorder *)

(** Case analysis on what the platform answers to one [startRecording]. *)
Ltac start_cases e :=
  unfold AudioRecorder.startRecording, AudioRecorder.startRecording_resume,
    AudioRecorder.startRecording_request, AudioRecorder.startRecording_try,
    AudioRecorder.startRecording_catch, AudioRecorder.awaitUserMedia,
    AudioRecorder.newMediaRecorderWithMime,
    AudioRecorder.newMediaRecorderPlain, AudioRecorder.start,
    AudioRecorder.try_catch, AudioRecorder.bind, AudioRecorder.ret,
    AudioRecorder.throw, AudioRecorder.onState, AudioRecorder.onBrowser,
    AudioRecorder.fromBrowser;
  destruct e as [[err|stream] probe [err1|] [err2|ty] [err3|]]; simpl;
  try destruct (length (Browser.getAudioTracks stream) =? 0) eqn:Htracks;
  simpl.

Section Recorder.
Import JS Browser AudioRecorder.

Lemma set_audioChunksRef_same (s : State) :
  set_audioChunksRef (audioChunksRef s) s = s.
Proof. by destruct s. Qed.

Lemma deliver_appends (fragments : list Blob.Blob) (s : State) :
  deliver fragments s
  = set_audioChunksRef (audioChunksRef s ++ List.filter nonEmpty fragments) s.
Proof.
  revert s. induction fragments as [|f fragments IH]; intros s.
  - simpl. rewrite app_nil_r. by rewrite set_audioChunksRef_same.
  - unfold deliver in *. simpl. rewrite IH. unfold ondataavailable.
    destruct (nonEmpty f); simpl; [|done].
    by rewrite <- app_assoc.
Qed.

Lemma deliver_buffer (fragments : list Blob.Blob) (s : State) :
  audioChunksRef (deliver fragments s)
  = audioChunksRef s ++ List.filter nonEmpty fragments.
Proof. by rewrite deliver_appends. Qed.

Lemma deliver_keeps (fragments : list Blob.Blob) (s : State) :
  audioBlob (deliver fragments s) = audioBlob s ∧
  error (deliver fragments s) = error s.
Proof. by rewrite deliver_appends. Qed.

Lemma startRecording_started (e : StartEnv) (w : Sys) :
  isRecording (fst (startRecording e w)) = true →
  audioChunksRef (fst (startRecording e w)) = [] ∧
  audioBlob (fst (startRecording e w)) = audioBlob (fst w) ∧
  error (fst (startRecording e w)) = "".
Proof.
  start_cases e; intros H; try discriminate H; done.
Qed.

Lemma stopRecording_keeps (w : Sys) :
  audioChunksRef (fst (stopRecording w)) = audioChunksRef (fst w) ∧
  audioBlob (fst (stopRecording w)) = audioBlob (fst w) ∧
  streamRef (fst (stopRecording w)) = streamRef (fst w) ∧
  liveTracks (snd (stopRecording w)) = liveTracks (snd w).
Proof.
  destruct w as [s b]. unfold stopRecording.
  destruct (mediaRecorderRef s) as [r|]; [|done].
  destruct (isRecording s); [|done].
  destruct (timerRef s), (state r); done.
Qed.

Lemma onstop_artifact (suffix : string) (w : Sys) :
  audioBlob (fst (onstop suffix w)) =
    if 0 <? totalSize (audioChunksRef (fst w))
    then Some (Blob.new (audioChunksRef (fst w))
                        (firstChunkType (audioChunksRef (fst w))))
    else audioBlob (fst w).
Proof.
  destruct w as [s b]. unfold onstop; simpl.
  destruct (audioChunksRef s) as [|c chunks] eqn:Hchunks; [done|].
  change (length (c :: chunks) =? 0) with false. cbv iota.
  destruct (totalSize (c :: chunks) =? 0) eqn:Htotal.
  - apply Nat.eqb_eq in Htotal. by rewrite Htotal.
  - apply Nat.eqb_neq in Htotal.
    assert ((0 <? totalSize (c :: chunks)) = true) as ->
      by (apply Nat.ltb_lt; lia).
    rewrite size_new, <- totalSize_sum.
    assert ((0 <? totalSize (c :: chunks)) = true) as ->
      by (apply Nat.ltb_lt; lia).
    simpl. by destruct (streamRef s).
Qed.

Lemma stopRecording_error (w : Sys) :
  error (fst (stopRecording w)) = error (fst w).
Proof.
  destruct w as [s b]. unfold stopRecording.
  destruct (mediaRecorderRef s) as [r|]; [|done].
  destruct (isRecording s); [|done].
  destruct (timerRef s), (state r); done.
Qed.

Lemma onstop_error (suffix : string) (w : Sys) :
  0 < totalSize (audioChunksRef (fst w)) →
  error (fst (onstop suffix w)) = error (fst w).
Proof.
  destruct w as [s b]. cbn [fst]. intros Htotal. unfold onstop.
  destruct (length (audioChunksRef s) =? 0) eqn:Hlength.
  { apply Nat.eqb_eq, length_zero_iff_nil in Hlength.
    rewrite Hlength in Htotal. by apply Nat.lt_irrefl in Htotal. }
  destruct (totalSize (audioChunksRef s) =? 0) eqn:Hzero;
    [apply Nat.eqb_eq in Hzero; lia|].
  rewrite size_new, <- totalSize_sum.
  apply Nat.ltb_lt in Htotal. rewrite Htotal. simpl.
  by destruct (streamRef s).
Qed.

(** The buffer that finalization of a started session meets. *)
Lemma session_buffer (e : StartEnv) (before after : list Blob.Blob) (w : Sys) :
  isRecording (fst (startRecording e w)) = true →
  audioChunksRef
    (deliver after
       (fst (stopRecording (deliver before (fst (startRecording e w)),
                            snd (startRecording e w)))))
  = List.filter nonEmpty (before ++ after).
Proof.
  intros Hstarted.
  destruct (startRecording_started e w Hstarted) as (Hchunks & _ & _).
  rewrite deliver_buffer.
  destruct (stopRecording_keeps
              (deliver before (fst (startRecording e w)),
               snd (startRecording e w))) as (-> & _).
  cbn [fst]. by rewrite deliver_buffer, Hchunks, List.filter_app.
Qed.

(** C1: in a session that started, with fragments delivered before and
    after the stop request, finalization yields, whenever the fragments
    hold a byte at all, the artifact whose bytes are the concatenation of
    the non-empty fragments in emission order, which is the concatenation
    of all of them, and whose size is the sum of the fragment sizes; no
    error message is set. When they hold no byte, no artifact is set. *)
Theorem recording_concatenates_fragments
    (e : StartEnv) (before after : list Blob.Blob) (suffix : string) (w : Sys) :
  isRecording (fst (startRecording e w)) = true →
  (0 < sum_list (Blob.size <$> before ++ after) →
   ∃ artifact,
     audioBlob (fst (session e before after suffix w)) = Some artifact ∧
     Blob.bytes artifact
       = concat (Blob.bytes <$> List.filter nonEmpty (before ++ after)) ∧
     Blob.bytes artifact = concat (Blob.bytes <$> before ++ after) ∧
     Blob.size artifact = sum_list (Blob.size <$> before ++ after) ∧
     error (fst (session e before after suffix w)) = "") ∧
  (sum_list (Blob.size <$> before ++ after) = 0 →
   audioBlob (fst (session e before after suffix w)) = audioBlob (fst w)).
Proof.
  intros Hstarted.
  pose proof (session_buffer e before after w Hstarted) as Hbuffer.
  destruct (startRecording_started e w Hstarted) as (_ & Hblob & Herror).
  unfold session. split.
  - intros Hsum. eexists. split; [|split; [|split; [|split]]].
    + rewrite onstop_artifact. cbn [fst].
      rewrite Hbuffer, totalSize_sum, sum_nonempty.
      apply Nat.ltb_lt in Hsum. by rewrite Hsum.
    + done.
    + simpl. apply concat_nonempty.
    + by rewrite size_new, sum_nonempty.
    + rewrite onstop_error; cbn [fst].
      * rewrite (proj2 (deliver_keeps _ _)), stopRecording_error. cbn [fst].
        by rewrite (proj2 (deliver_keeps _ _)).
      * by rewrite Hbuffer, totalSize_sum, sum_nonempty.
  - intros Hsum. rewrite onstop_artifact. cbn [fst].
    rewrite Hbuffer, totalSize_sum, sum_nonempty, Hsum.
    change (0 <? 0) with false. cbv iota.
    rewrite (proj1 (deliver_keeps _ _)).
    destruct (stopRecording_keeps
                (deliver before (fst (startRecording e w)),
                 snd (startRecording e w))) as (_ & -> & _).
    cbn [fst]. by rewrite (proj1 (deliver_keeps _ _)).
Qed.

(** The scenario of the design: fragments of 10, 0 and 20 bytes give an
    artifact of 30 bytes. *)
Lemma recording_concatenates_fragments_witness :
  isRecording (fst (startRecording Scenario.granted (initial, Scenario.browser0)))
    = true ∧
  Blob.size <$> audioBlob (fst Scenario.finalized) = Some 30.
Proof.
  split; [reflexivity|].
  destruct (proj1 (recording_concatenates_fragments Scenario.granted
                     [Scenario.fragment 10 "audio/mp4";
                      Scenario.fragment 0 "audio/mp4"]
                     [Scenario.fragment 20 "audio/mp4"] "5b1c"
                     (initial, Scenario.browser0) eq_refl))
    as (artifact & Hblob & _ & _ & Hsize & _).
  - simpl. lia.
  - unfold Scenario.finalized. rewrite Hblob. simpl. by rewrite Hsize.
Defined.

Lemma startErrorMessage_prefix (thrown : Thrown) :
  ∃ rest, startErrorMessage thrown = String "E" rest.
Proof.
  unfold startErrorMessage.
  destruct (instanceofError thrown); [|by eexists].
  repeat (match goal with |- context [if ?c then _ else _] => destruct c end;
          [by eexists|]).
  by eexists.
Qed.

Lemma stopTracks_unfold (stream : MediaStream) (b : Browser) :
  stopTracks stream b
  = with_liveTracks (λ live, live ∖ list_to_set (track_id <$> getTracks stream)) b.
Proof.
  unfold stopTracks. generalize (getTracks stream) as tracks.
  intros tracks. revert b.
  induction tracks as [|t tracks IH]; intros b; csimpl.
  - destruct b; unfold with_liveTracks; simpl; f_equal.
    by rewrite difference_empty_L.
  - rewrite IH. destruct b; unfold stop, with_liveTracks; simpl; f_equal.
    by rewrite difference_difference_l_L.
Qed.

Lemma phase_unfold (w : Sys) :
  phase w =
    if isRecording (fst w) then Recording
    else if 0 <? pendingRequests (snd w) then Requesting
    else if bool_decide (is_Some (audioBlob (fst w))) then Stopped
    else if truthy (error (fst w)) then Error
    else Idle.
Proof. by destruct w. Qed.

Lemma onstop_keeps (suffix : string) (w : Sys) :
  isRecording (fst (onstop suffix w)) = isRecording (fst w) ∧
  pendingRequests (snd (onstop suffix w)) = pendingRequests (snd w).
Proof.
  destruct w as [s b]. unfold onstop.
  destruct (length (audioChunksRef s) =? 0); [done|].
  destruct (totalSize (audioChunksRef s) =? 0); [done|].
  destruct (0 <? Blob.size _); simpl; destruct (streamRef s); simpl;
    rewrite ?stopTracks_unfold; done.
Qed.

Lemma onstop_empty (suffix : string) (s : State) (b : Browser) :
  totalSize (audioChunksRef s) = 0 →
  onstop suffix (s, b) =
    (setError (if length (audioChunksRef s) =? 0
               then "No audio data was recorded. Please try again."
               else "Recorded audio file is empty. Please check your microphone and try again.") s,
     b).
Proof.
  intros Hzero. unfold onstop.
  destruct (length (audioChunksRef s) =? 0); [done|].
  by rewrite Hzero.
Qed.

(** After a stop request, that is with the recording flag cleared, no
    artifact held and no request pending: when finalization finds no chunk,
    or chunks of zero bytes in all, the session ends in the error state
    with one of the two empty-recording messages, which no acquisition
    failure and no recorder error produces, and no artifact is set; an
    artifact exists afterwards exactly when the session is stopped with a
    non-empty buffer of positive total size, and an artifact never has zero
    bytes. *)
Theorem empty_finalization_is_error (suffix : string) (s : State) (b : Browser) :
  isRecording s = false → audioBlob s = None → pendingRequests b = 0 →
  (totalSize (audioChunksRef s) = 0 →
     phase (onstop suffix (s, b)) = Error ∧
     audioBlob (fst (onstop suffix (s, b))) = None ∧
     error (fst (onstop suffix (s, b))) =
       (if length (audioChunksRef s) =? 0
        then "No audio data was recorded. Please try again."
        else "Recorded audio file is empty. Please check your microphone and try again.") ∧
     (∀ thrown, startErrorMessage thrown ≠ error (fst (onstop suffix (s, b)))) ∧
     error (onerror s) ≠ error (fst (onstop suffix (s, b)))) ∧
  (is_Some (audioBlob (fst (onstop suffix (s, b)))) ↔
     phase (onstop suffix (s, b)) = Stopped ∧
     audioChunksRef s ≠ [] ∧ 0 < totalSize (audioChunksRef s)) ∧
  (∀ artifact, audioBlob (fst (onstop suffix (s, b))) = Some artifact →
               0 < Blob.size artifact).
Proof.
  intros Hrec Hblob Hpending.
  split; [|split].
  - intros Hzero. rewrite (onstop_empty _ _ _ Hzero). simpl.
    rewrite Hrec, Hpending, Hblob. simpl.
    destruct (length (audioChunksRef s) =? 0); simpl;
      (repeat split; [|done]);
      intros thrown; destruct (startErrorMessage_prefix thrown) as [rest ->];
      discriminate.
  - rewrite onstop_artifact; cbn [fst snd].
    destruct (0 <? totalSize (audioChunksRef s)) eqn:Htotal.
    + split; [|by eauto].
      intros _. split; [|split; [|by apply Nat.ltb_lt]].
      * destruct (onstop_keeps suffix (s, b)) as [Hr Hp].
        rewrite (phase_unfold (onstop suffix (s, b))), Hr, Hp.
        rewrite onstop_artifact. cbn [fst snd]. by rewrite Hrec, Hpending, Htotal.
      * intros Hnil. rewrite Hnil in Htotal. discriminate Htotal.
    + rewrite Hblob. split; [by intros [? ?]|].
      apply Nat.ltb_ge in Htotal. intros (_ & _ & ?). lia.
  - intros artifact. rewrite onstop_artifact; simpl.
    destruct (0 <? totalSize (audioChunksRef s)) eqn:Htotal; [|congruence].
    intros [= <-]. apply Nat.ltb_lt in Htotal.
    by rewrite size_new, <- totalSize_sum.
Qed.

(** A session stopped before any chunk arrived ends in the error state. *)
Lemma empty_finalization_is_error_witness :
  isRecording (fst Scenario.stoppedEmpty) = false ∧
  audioBlob (fst Scenario.stoppedEmpty) = None ∧
  pendingRequests (snd Scenario.stoppedEmpty) = 0 ∧
  phase (onstop "5b1c" (fst Scenario.stoppedEmpty, snd Scenario.stoppedEmpty))
    = Error.
Proof.
  do 3 (split; [reflexivity|]).
  exact (proj1 (proj1 (empty_finalization_is_error "5b1c"
                         (fst Scenario.stoppedEmpty) (snd Scenario.stoppedEmpty)
                         eq_refl eq_refl eq_refl) eq_refl)).
Defined.

(** C2, at a failing input: the recorder of a started session fires its
    stop event while no stop was requested. The stop handler sets the
    empty-recording message but, unlike the error handler, leaves the
    recording flag: the session stays in the recording state, with the stop
    control, the error banner and the interval running, and is not in the
    error state. With a chunk buffered the artifact is set in that same
    recording state, not in the stopped state. *)
Theorem stop_event_without_stop_request :
  phase (startRecording Scenario.granted (initial, Scenario.browser0))
    = Recording ∧
  audioChunksRef
    (fst (startRecording Scenario.granted (initial, Scenario.browser0))) = [] ∧
  error (fst Cases.stoppedByItself)
    = "No audio data was recorded. Please try again." ∧
  isRecording (fst Cases.stoppedByItself) = true ∧
  phase Cases.stoppedByItself = Recording ∧
  render (fst Cases.stoppedByItself) = [ErrorBanner; StopButton] ∧
  timerRef (fst Cases.stoppedByItself) = Some 1%positive ∧
  elements (intervals (snd Cases.stoppedByItself)) = [1%positive] ∧
  isRecording (onerror (fst Cases.stoppedByItself)) = false ∧
  Blob.size <$> audioBlob (fst Cases.stoppedByItselfWithChunk) = Some 10 ∧
  phase Cases.stoppedByItselfWithChunk = Recording ∧
  render (fst Cases.stoppedByItselfWithChunk) = [StopButton; ResultPanel].
Proof. repeat split; reflexivity. Qed.

(** A start while the session records is carried out, not rejected: a
    second device request is issued, the buffered chunk is dropped and
    another timer replaces the running one; and a start while a request is
    pending issues a second request. *)
Lemma start_while_recording_not_rejected :
  phase Scenario.recordingOneChunk = Recording ∧
  deviceRequests (snd Scenario.recordingOneChunk) = 1 ∧
  deviceRequests (snd (startRecording Scenario.granted Scenario.recordingOneChunk)) = 2 ∧
  audioChunksRef (fst Scenario.recordingOneChunk)
    = [Scenario.fragment 10 "audio/mp4"] ∧
  audioChunksRef (fst (startRecording Scenario.granted Scenario.recordingOneChunk)) = [] ∧
  timerRef (fst Scenario.recordingOneChunk) = Some 1%positive ∧
  timerRef (fst (startRecording Scenario.granted Scenario.recordingOneChunk))
    = Some 2%positive ∧
  phase (startRecording_request (initial, Scenario.browser0)) = Requesting ∧
  deviceRequests
    (snd (startRecording_request
            (startRecording_request (initial, Scenario.browser0)))) = 2.
Proof. repeat split; reflexivity. Qed.

Lemma render_start (s : State) :
  StartButton ∈ render s ↔
  isSupported s = true ∧ isRecording s = false ∧ audioBlob s = None.
Proof.
  unfold render.
  destruct (isSupported s), (truthy (error s)), (isRecording s),
    (audioBlob s), (truthy (audioUrl s)); simpl;
    (split; [intros H | intros (? & ? & ?)]); try done;
    try (repeat split; done);
    try (repeat constructor; done);
    repeat (apply elem_of_cons in H as [H|H]; [discriminate H|]);
    by apply elem_of_nil in H.
Qed.

(** C3, at a failing input: the start control is clicked again while the
    first device request is pending. In that state the control is still
    rendered; the second click is not rejected and issues a second
    request. Once both are granted the handles hold the second stream and
    the second interval only, and the track of the first stream and the
    first interval are still live; stopping and finalizing the session, or
    tearing the component down, releases only what the handles hold, so
    the first track keeps capturing and the first interval keeps firing. *)
Theorem second_start_while_pending_leaks :
  phase (startRecording_request (initial, Scenario.browser0)) = Requesting ∧
  render (fst (startRecording_request (initial, Scenario.browser0)))
    = [StartButton] ∧
  deviceRequests (snd Cases.clickedTwice) = 2 ∧
  pendingRequests (snd Cases.clickedTwice) = 2 ∧
  streamRef (fst Cases.doubleStart) = Some Cases.secondMicrophone ∧
  timerRef (fst Cases.doubleStart) = Some 2%positive ∧
  elements (liveTracks (snd Cases.doubleStart)) = [7%positive; 8%positive] ∧
  elements (intervals (snd Cases.doubleStart)) = [2%positive; 1%positive] ∧
  elements (liveTracks (snd (unmount Cases.doubleStart))) = [7%positive] ∧
  elements (intervals (snd (unmount Cases.doubleStart))) = [1%positive] ∧
  elements (liveTracks
              (snd (unmount (onstop "5b1c" (stopRecording Cases.doubleStart)))))
    = [7%positive] ∧
  elements (intervals
              (snd (unmount (onstop "5b1c" (stopRecording Cases.doubleStart)))))
    = [1%positive].
Proof. repeat split; reflexivity. Qed.

(** A rejected device request sets the message of its condition, clears the
    recording flag and assigns no stream handle. *)
Lemma start_rejected (e : StartEnv) (thrown : Thrown) (w : Sys) :
  getUserMedia e = inl thrown →
  error (fst (startRecording e w)) = startErrorMessage thrown ∧
  isRecording (fst (startRecording e w)) = false ∧
  streamRef (fst (startRecording e w)) = streamRef (fst w) ∧
  liveTracks (snd (startRecording e w)) = liveTracks (snd w).
Proof.
  start_cases e; intros [= ->]; done.
Qed.

(** Whatever the try block throws, the catch block reports the message of
    that condition, which is never empty, and clears the recording flag. *)
Lemma start_failure_reports (e : StartEnv) (thrown : Thrown) (w : Sys) :
  fst (startRecording_try e (startRecording_request w)) = inl thrown →
  error (fst (startRecording e w)) = startErrorMessage thrown ∧
  truthy (error (fst (startRecording e w))) = true ∧
  isRecording (fst (startRecording e w)) = false.
Proof.
  unfold startRecording, startRecording_resume, try_catch.
  destruct (startRecording_try e (startRecording_request w))
    as [[thrown'|[]] w']; [|discriminate].
  intros [= ->]. cbn.
  destruct (startErrorMessage_prefix thrown) as [rest ->]. done.
Qed.

(** The scenario of the design: on permission denial the session is in the
    error state with the permission message, and no stream handle is set. *)
Example permission_denied :
  phase (startRecording Scenario.denied (initial, Scenario.browser0)) = Error ∧
  error (fst (startRecording Scenario.denied (initial, Scenario.browser0)))
    = "Error accessing microphone. Please allow microphone access and try again." ∧
  streamRef (fst (startRecording Scenario.denied (initial, Scenario.browser0)))
    = None.
Proof. repeat split; reflexivity. Qed.

(** The messages of the four classified conditions and of a thrown value
    that is no [Error] differ from each other. *)
Lemma classified_messages_distinct :
  NoDup
    [ startErrorMessage (mkThrown true "NotAllowedError" "");
      startErrorMessage (mkThrown true "NotFoundError" "");
      startErrorMessage (mkThrown true "NotSupportedError" "");
      startErrorMessage (mkThrown true "NotReadableError" "");
      startErrorMessage (mkThrown false "" "") ].
Proof. apply (bool_decide_unpack _). vm_compute. exact I. Qed.

(** C4, at a failing input: the microphone is granted and
    [mediaRecorder.start] throws. The catch block reports the condition and
    the session is in the error state, but the stream acquired before the
    throw stays in [streamRef] and its track keeps capturing: the partially
    acquired handle is not released. *)
Theorem start_failure_keeps_stream :
  error (fst (startRecording Scenario.startThrows (initial, Scenario.browser0)))
    = "Error accessing microphone. Audio recording is not supported in this browser." ∧
  phase (startRecording Scenario.startThrows (initial, Scenario.browser0)) = Error ∧
  streamRef (fst (startRecording Scenario.startThrows (initial, Scenario.browser0)))
    = Some Scenario.microphone ∧
  elements (liveTracks (snd (startRecording Scenario.startThrows
                               (initial, Scenario.browser0))))
    = [7%positive].
Proof. repeat split; reflexivity. Qed.

(** C5, at a failing input: a session stopped before any chunk arrived.
    The stop handler returns at the empty-buffer test, before its stream
    clean-up: the session leaves the recording state for the error state
    with the stream still held and its track still capturing, whereas the
    finalization that produces an artifact releases both. *)
Theorem empty_finalization_keeps_stream :
  phase (onstop "5b1c" Scenario.stoppedEmpty) = Error ∧
  error (fst (onstop "5b1c" Scenario.stoppedEmpty))
    = "No audio data was recorded. Please try again." ∧
  streamRef (fst (onstop "5b1c" Scenario.stoppedEmpty)) = Some Scenario.microphone ∧
  elements (liveTracks (snd (onstop "5b1c" Scenario.stoppedEmpty))) = [7%positive] ∧
  streamRef (fst Scenario.finalized) = None ∧
  elements (liveTracks (snd Scenario.finalized)) = [].
Proof. repeat split; reflexivity. Qed.

Lemma cleanup_unfold (url : string) (w : Sys) :
  cleanup url w =
    (fst w,
     {| liveTracks :=
          liveTracks (snd w) ∖
            from_option (λ stream, list_to_set (track_id <$> getTracks stream))
                        ∅ (streamRef (fst w));
        intervals :=
          intervals (snd w) ∖ from_option singleton ∅ (timerRef (fst w));
        nextIntervalId := nextIntervalId (snd w);
        objectUrls :=
          objectUrls (snd w) ∖ (if truthy url then {[ url ]} else ∅);
        deviceRequests := deviceRequests (snd w);
        pendingRequests := pendingRequests (snd w) |}).
Proof.
  destruct w as [s [live running next urls requests pending]].
  unfold cleanup, clearInterval, revokeObjectURL, with_intervals,
    with_objectUrls. simpl.
  destruct (timerRef s), (truthy url), (streamRef s); simpl;
    rewrite ?stopTracks_unfold; unfold with_liveTracks; simpl;
    f_equal; f_equal; by rewrite ?difference_empty_L.
Qed.

(** Teardown releases what the component still holds. *)
Lemma unmount_releases (w : Sys) :
  (∀ stream t, streamRef (fst w) = Some stream → t ∈ getTracks stream →
               track_id t ∉ liveTracks (snd (unmount w))) ∧
  (∀ id, timerRef (fst w) = Some id → id ∉ intervals (snd (unmount w))) ∧
  (audioUrl (fst w) ≠ "" → audioUrl (fst w) ∉ objectUrls (snd (unmount w))).
Proof.
  unfold unmount. rewrite cleanup_unfold. simpl. repeat split.
  - intros stream t -> Ht [_ Hout]%elem_of_difference. apply Hout. simpl.
    apply elem_of_list_to_set, list_elem_of_fmap. eauto.
  - intros id -> [_ Hout]%elem_of_difference. apply Hout. simpl.
    by apply elem_of_singleton.
  - intros Hurl [_ Hout]%elem_of_difference. apply Hout.
    destruct (audioUrl (fst w)); [done|]. by apply elem_of_singleton.
Qed.

(** Teardown twice is teardown once. *)
Lemma unmount_idempotent (w : Sys) : unmount (unmount w) = unmount w.
Proof.
  unfold unmount. rewrite !cleanup_unfold. simpl.
  f_equal. f_equal; by rewrite difference_difference_l_L, union_idemp_L.
Qed.

(** A finalization that meets recorded bytes releases the stream. *)
Lemma finalization_releases_stream (suffix : string) (w : Sys)
    (stream : MediaStream) :
  0 < totalSize (audioChunksRef (fst w)) →
  streamRef (fst w) = Some stream →
  streamRef (fst (onstop suffix w)) = None ∧
  ∀ t, t ∈ getTracks stream → track_id t ∉ liveTracks (snd (onstop suffix w)).
Proof.
  destruct w as [s b]. simpl. intros Htotal Hstream. unfold onstop.
  destruct (length (audioChunksRef s) =? 0) eqn:Hlength.
  { apply Nat.eqb_eq, length_zero_iff_nil in Hlength.
    rewrite Hlength in Htotal. by apply Nat.lt_irrefl in Htotal. }
  destruct (totalSize (audioChunksRef s) =? 0) eqn:Hzero;
    [apply Nat.eqb_eq in Hzero; lia|].
  destruct (0 <? Blob.size _); simpl; rewrite Hstream; simpl;
    (split; [done|]); intros t Ht; rewrite stopTracks_unfold; simpl;
    intros [_ Hout]%elem_of_difference; apply Hout;
    apply elem_of_list_to_set, list_elem_of_fmap; eauto.
Qed.

(** The loop returns the first supported candidate, or nothing when no
    candidate is supported. *)
Lemma firstSupported_spec (probe : string → bool) (candidates : list string) :
  match firstSupported probe candidates with
  | Some type =>
      ∃ i, candidates !! i = Some type ∧ probe type = true ∧
           ∀ j other, j < i → candidates !! j = Some other → probe other = false
  | None => ∀ type, type ∈ candidates → probe type = false
  end.
Proof.
  induction candidates as [|c candidates IH]; simpl.
  - intros type Hin. by apply elem_of_nil in Hin.
  - destruct (probe c) eqn:Hc.
    + exists 0. repeat split; [done|]. intros j other Hj. lia.
    + destruct (firstSupported probe candidates) as [type|].
      * destruct IH as (i & Hi & Htype & Hbefore).
        exists (S i). repeat split; [done..|].
        intros [|j] other Hj; simpl; [by intros [= <-]|].
        apply Hbefore. lia.
      * intros type [->|Hin]%elem_of_cons; [done|by apply IH].
Qed.

(** Counterexample to C7 as stated: the platform records [audio/mp4] only,
    so that is the negotiated type and the type of the recorder; the one
    chunk carries no type; the artifact is typed [audio/webm], not the
    negotiated type. *)
Lemma artifact_type_not_negotiated :
  getSupportedMimeType (isTypeSupported Scenario.granted) = "audio/mp4" ∧
  mimeType <$> mediaRecorderRef (fst Scenario.finalizedUntyped) = Some "audio/mp4" ∧
  Blob.type <$> audioChunksRef (fst Scenario.finalizedUntyped) = [""] ∧
  Blob.type <$> audioBlob (fst Scenario.finalizedUntyped) = Some "audio/webm".
Proof. repeat split; reflexivity. Qed.

(** C7, amended: negotiation returns the first entry of the preference
    list that the probe supports, and [audio/webm] when it supports none;
    a recorder constructed with the option carries that type, and no
    recorder event, tick, stop request or finalization changes the type of
    the recorder behind the handle; the artifact carries the type of the
    first chunk, and the fixed type [audio/webm] when that chunk carries
    none. *)
Theorem negotiation_and_artifact_type
    (e : StartEnv) (suffix : string) (w : Sys) :
  ((∃ i type,
      types !! i = Some type ∧ isTypeSupported e type = true ∧
      (∀ j other, j < i → types !! j = Some other →
                  isTypeSupported e other = false) ∧
      getSupportedMimeType (isTypeSupported e) = type)
   ∨ ((∀ type, type ∈ types → isTypeSupported e type = false) ∧
      getSupportedMimeType (isTypeSupported e) = "audio/webm")) ∧
  (isRecording (fst (startRecording e w)) = true →
   newRecorderWithMime e = None →
   mimeType <$> mediaRecorderRef (fst (startRecording e w))
     = Some (getSupportedMimeType (isTypeSupported e))) ∧
  (∀ data, mediaRecorderRef (ondataavailable data (fst w))
           = mediaRecorderRef (fst w)) ∧
  mediaRecorderRef (tick (fst w)) = mediaRecorderRef (fst w) ∧
  mimeType <$> mediaRecorderRef (fst (stopRecording w))
    = mimeType <$> mediaRecorderRef (fst w) ∧
  mediaRecorderRef (fst (onstop suffix w)) = mediaRecorderRef (fst w) ∧
  (0 < totalSize (audioChunksRef (fst w)) →
   ∃ first,
     audioChunksRef (fst w) !! 0 = Some first ∧
     Blob.type <$> audioBlob (fst (onstop suffix w))
       = Some (if truthy (Blob.type first) then Blob.type first
               else "audio/webm")).
Proof.
  split; [|split; [|split; [|split; [|split; [|split]]]]].
  - unfold getSupportedMimeType.
    pose proof (firstSupported_spec (isTypeSupported e) types) as Hspec.
    destruct (firstSupported (isTypeSupported e) types) as [type|].
    + left. destruct Hspec as (i & ? & ? & ?). by exists i, type.
    + by right.
  - start_cases e; intros H; try discriminate H; intros Hctor;
      try discriminate Hctor; done.
  - intros data. unfold ondataavailable. by destruct (nonEmpty data).
  - done.
  - destruct w as [s b]. unfold stopRecording. cbn [fst].
    destruct (mediaRecorderRef s) as [r|] eqn:Hr; [|by simpl; rewrite ?Hr].
    destruct (isRecording s); [|by simpl; rewrite ?Hr].
    destruct (timerRef s), (state r); simpl; by rewrite ?Hr.
  - destruct w as [s b]. unfold onstop.
    destruct (length (audioChunksRef s) =? 0); [done|].
    destruct (totalSize (audioChunksRef s) =? 0); [done|].
    destruct (0 <? Blob.size _); simpl; by destruct (streamRef s).
  - intros Htotal. rewrite onstop_artifact.
    apply Nat.ltb_lt in Htotal. rewrite Htotal. simpl.
    destruct (audioChunksRef (fst w)) as [|first chunks]; [discriminate Htotal|].
    by exists first.
Qed.

(** C8: from the stopped state and from the error state, reset leads to
    the idle state with an empty chunk buffer, no artifact, zero elapsed
    time, no error message and no preview URL, the previous URL being
    revoked. *)
Theorem reset_returns_to_idle (w : Sys) :
  phase w = Stopped ∨ phase w = Error →
  phase (resetRecording w) = Idle ∧
  audioChunksRef (fst (resetRecording w)) = [] ∧
  audioBlob (fst (resetRecording w)) = None ∧
  recordingTime (fst (resetRecording w)) = 0 ∧
  error (fst (resetRecording w)) = "" ∧
  audioUrl (fst (resetRecording w)) = "" ∧
  (audioUrl (fst w) ≠ "" →
   audioUrl (fst w) ∉ objectUrls (snd (resetRecording w))).
Proof.
  destruct w as [s b]. unfold phase, resetRecording. simpl.
  destruct (isRecording s) eqn:Hrec; [by intros [?|?]|].
  destruct (0 <? pendingRequests b) eqn:Hpending; [by intros [?|?]|].
  intros _. repeat split.
  - destruct (truthy (audioUrl s)); simpl; by rewrite Hpending.
  - intros Hurl. destruct (audioUrl s) as [|c url]; [done|]. simpl.
    intros [_ Hout]%elem_of_difference. apply Hout. by apply elem_of_singleton.
Qed.

(** Reset of the finalized session of the scenario. *)
Lemma reset_returns_to_idle_witness :
  (phase Scenario.finalized = Stopped ∨ phase Scenario.finalized = Error) ∧
  phase (resetRecording Scenario.finalized) = Idle.
Proof.
  split; [left; reflexivity|].
  exact (proj1 (reset_returns_to_idle Scenario.finalized (or_introl eq_refl))).
Defined.

End Recorder.

(** ** The recordings query *)

Section Lists.
Import Supabase RecordingsList.

Lemma isAdmin_email (user : User) :
  isAdmin (Some user) = true ↔ email user = Some "banuweb3@gmail.com".
Proof.
  unfold isAdmin. destruct (email user) as [address|]; [|done].
  rewrite String.eqb_eq. split; congruence.
Qed.

(** C9: an identity is privileged exactly when its email is the fixed
    admin address; the query carries the single equality filter of
    [user_id] against the identity's id exactly when the identity is not
    privileged, and no filter, so that every row passes, exactly when it is
    privileged. *)
Theorem recordings_query_restriction (user : User) :
  (isAdmin (Some user) = true ↔ email user = Some "banuweb3@gmail.com") ∧
  (filters (fetchRecordings_query user) = [("user_id", id user)] ↔
     isAdmin (Some user) = false) ∧
  (filters (fetchRecordings_query user) = [] ↔ isAdmin (Some user) = true) ∧
  (∀ row, passes (fetchRecordings_query user) row = true ↔
          isAdmin (Some user) = true ∨ user_id row = Some (id user)).
Proof.
  split; [apply isAdmin_email|].
  unfold fetchRecordings_query, passes.
  destruct (isAdmin (Some user)); simpl.
  - repeat split; try done. by left.
  - repeat split; try done.
    + intros H. right. rewrite andb_true_r in H.
      by apply bool_decide_eq_true in H.
    + intros [?|H]; [done|]. rewrite andb_true_r. by apply bool_decide_eq_true.
Qed.
End Lists.

(** ** The upload workflow *)

Section Upload.
Import JS Supabase App.

Lemma append_assoc (s1 s2 s3 : string) :
  (s1 +:+ s2) +:+ s3 = s1 +:+ s2 +:+ s3.
Proof.
  induction s1 as [|c s1 IH]; [reflexivity|].
  change (String c ((s1 +:+ s2) +:+ s3) = String c (s1 +:+ s2 +:+ s3)).
  by rewrite IH.
Qed.

(** C6: whatever the type of the artifact handed over, the workflow stores
    in the recordings bucket a blob typed [audio/wav] with the artifact's
    bytes unchanged, under the path
    [recordings/<trimmed candidate name>/<uuid>.wav]. *)
Theorem upload_rewraps_as_wav
    (e : UploadEnv) (audioBlob : Blob.Blob) (a : State) (be : Backend) :
  truthy (trim (candidateName a)) = true →
  truthy (trim (questionLabel a)) = true →
  uploadResult e = None →
  ∃ stored,
    uploads (snd (handleRecordingComplete e audioBlob (a, be)))
      = uploads be ++ [stored] ∧
    bucket stored = "recordings" ∧
    Blob.type (body stored) = "audio/wav" ∧
    Blob.bytes (body stored) = Blob.bytes audioBlob ∧
    path stored
      = "recordings/" +:+ trim (candidateName a) +:+ "/" +:+ uuidv4 e +:+ ".wav" ∧
    ∃ stem, path stored = stem +:+ ".wav".
Proof.
  intros Hname Hlabel Hupload. unfold handleRecordingComplete.
  rewrite Hname, Hlabel, Hupload. simpl.
  eexists. split.
  - destruct (insertResult e); simpl; reflexivity.
  - simpl. rewrite app_nil_r. repeat split.
    exists ("recordings/" +:+ trim (candidateName a) +:+ "/" +:+ uuidv4 e).
    by rewrite !append_assoc.
Qed.

(** An [audio/mp4] artifact uploaded for the candidate [ Ann Lee ]. *)
Lemma upload_rewraps_as_wav_witness :
  truthy (trim (candidateName (Scenario.form " Ann Lee " "Q1"))) = true ∧
  truthy (trim (questionLabel (Scenario.form " Ann Lee " "Q1"))) = true ∧
  uploadResult Scenario.accepted = None ∧
  ∃ stored,
    uploads (snd (handleRecordingComplete Scenario.accepted Scenario.artifact
                    (Scenario.form " Ann Lee " "Q1", Scenario.backend0)))
      = uploads Scenario.backend0 ++ [stored] ∧
    bucket stored = "recordings" ∧
    Blob.type (body stored) = "audio/wav" ∧
    Blob.bytes (body stored) = Blob.bytes Scenario.artifact ∧
    path stored
      = "recordings/" +:+ trim (candidateName (Scenario.form " Ann Lee " "Q1"))
        +:+ "/" +:+ uuidv4 Scenario.accepted +:+ ".wav" ∧
    ∃ stem, path stored = stem +:+ ".wav".
Proof.
  do 3 (split; [reflexivity|]).
  apply upload_rewraps_as_wav; reflexivity.
Defined.

(** C10: with an artifact to hand over, while the trimmed candidate name
    or the trimmed question label is empty the workflow only sets the
    validation message: nothing is uploaded or inserted, and the recorder
    with its artifact and the rest of the form stay as they were; after an
    accepted upload and insert the candidate name and the question label
    are cleared and the question position is 1 again. *)
Theorem upload_validation
    (e : UploadEnv) (r : AudioRecorder.State) (audioBlob : Blob.Blob)
    (a : State) (be : Backend) :
  AudioRecorder.audioBlob r = Some audioBlob →
  (truthy (trim (candidateName a)) && truthy (trim (questionLabel a)) = false →
   uploadClicked e r (a, be)
   = (r, (setUploadError
            (if truthy (trim (candidateName a))
             then "Please enter question label"
             else "Please enter candidate name") a,
          be))) ∧
  (truthy (trim (candidateName a)) = true →
   truthy (trim (questionLabel a)) = true →
   uploadResult e = None →
   insertResult e = None →
   fst (uploadClicked e r (a, be)) = r ∧
   candidateName (fst (snd (uploadClicked e r (a, be)))) = "" ∧
   questionLabel (fst (snd (uploadClicked e r (a, be)))) = "" ∧
   questionPosition (fst (snd (uploadClicked e r (a, be)))) = 1%Z ∧
   uploadSuccess (fst (snd (uploadClicked e r (a, be)))) = true ∧
   length (recording_logs (snd (snd (uploadClicked e r (a, be)))))
     = S (length (recording_logs be))).
Proof.
  intros Hblob. unfold uploadClicked, AudioRecorder.handleUpload.
  rewrite Hblob. unfold handleRecordingComplete. split.
  - destruct (truthy (trim (candidateName a))); [|done].
    destruct (truthy (trim (questionLabel a))); [discriminate|done].
  - intros -> -> -> ->. simpl. repeat split. rewrite length_app. simpl. lia.
Qed.

(** A blank candidate name is refused; a filled form is cleared after the
    upload. *)
Lemma upload_validation_witness :
  AudioRecorder.audioBlob (fst Scenario.finalized) = Some Scenario.artifact ∧
  uploadClicked Scenario.accepted (fst Scenario.finalized)
    (Scenario.form "  " "Q1", Scenario.backend0)
  = (fst Scenario.finalized,
     (setUploadError "Please enter candidate name" (Scenario.form "  " "Q1"),
      Scenario.backend0)) ∧
  candidateName
    (fst (snd (uploadClicked Scenario.accepted (fst Scenario.finalized)
                 (Scenario.form "Ann" "Q1", Scenario.backend0)))) = "".
Proof.
  split; [reflexivity|]. split.
  - exact (proj1 (upload_validation Scenario.accepted (fst Scenario.finalized)
                    Scenario.artifact (Scenario.form "  " "Q1")
                    Scenario.backend0 eq_refl) eq_refl).
  - exact (proj1 (proj2 (proj2 (upload_validation Scenario.accepted
                                  (fst Scenario.finalized) Scenario.artifact
                                  (Scenario.form "Ann" "Q1") Scenario.backend0
                                  eq_refl)
                           eq_refl eq_refl eq_refl eq_refl))).
Defined.
End Upload.

(** ** More on the recorder *)

Section MoreRecorder.
Import JS Browser AudioRecorder.

(** X1: outside the recording state, or without a recorder handle, the stop
    handler changes nothing, neither in the component nor on the platform. *)
Theorem stopRecording_noop_unless_recording (w : Sys) :
  phase w ≠ Recording ∨ mediaRecorderRef (fst w) = None →
  stopRecording w = w.
Proof.
  destruct w as [s b]. unfold phase, stopRecording. cbn [fst].
  destruct (mediaRecorderRef s) as [r|]; [|done].
  destruct (isRecording s); [|done].
  intros [H|H]; [by destruct H|discriminate H].
Qed.

Lemma stopRecording_noop_unless_recording_witness :
  (phase Scenario.finalized ≠ Recording ∨
   mediaRecorderRef (fst Scenario.finalized) = None) ∧
  stopRecording Scenario.finalized = Scenario.finalized.
Proof.
  assert (phase Scenario.finalized ≠ Recording ∨
          mediaRecorderRef (fst Scenario.finalized) = None) as H
    by (left; discriminate).
  split; [exact H|].
  exact (stopRecording_noop_unless_recording Scenario.finalized H).
Defined.

(** X2: in a recording session the stop handler clears the recording flag
    and the timer handle, stops the interval it held, asks a recording
    recorder to stop and leaves the recording state. *)
Theorem stopRecording_stops (w : Sys) (r : MediaRecorder) (id : positive) :
  isRecording (fst w) = true →
  mediaRecorderRef (fst w) = Some r →
  timerRef (fst w) = Some id →
  isRecording (fst (stopRecording w)) = false ∧
  timerRef (fst (stopRecording w)) = None ∧
  (id ∉ intervals (snd (stopRecording w))) ∧
  mediaRecorderRef (fst (stopRecording w))
    = Some {| mimeType := mimeType r;
              state := match state r with
                       | recording => inactive
                       | other => other
                       end |} ∧
  phase (stopRecording w) ≠ Recording.
Proof.
  destruct w as [s b]. cbn [fst]. intros Hrec Hr Hid.
  unfold stopRecording. rewrite Hr, Hrec, Hid.
  assert (id ∉ intervals (clearInterval id b)) as Hgone.
  { simpl. intros [_ Hout]%elem_of_difference. by apply Hout, elem_of_singleton. }
  destruct r as [ty st]. destruct st; simpl; rewrite ?Hr. all: repeat split; try done.
  all: by repeat case_match.
Qed.

Lemma stopRecording_stops_witness :
  isRecording (fst Scenario.recordingOneChunk) = true ∧
  mediaRecorderRef (fst Scenario.recordingOneChunk)
    = Some {| mimeType := "audio/mp4"; state := recording |} ∧
  timerRef (fst Scenario.recordingOneChunk) = Some 1%positive ∧
  isRecording (fst (stopRecording Scenario.recordingOneChunk)) = false.
Proof.
  do 3 (split; [reflexivity|]).
  exact (proj1 (stopRecording_stops Scenario.recordingOneChunk
                  {| mimeType := "audio/mp4"; state := recording |} 1%positive
                  eq_refl eq_refl eq_refl)).
Defined.

(** X3: a second stop request in a row changes nothing more. *)
Theorem stopRecording_idempotent (w : Sys) :
  stopRecording (stopRecording w) = stopRecording w.
Proof.
  destruct w as [s b]. unfold stopRecording.
  destruct (mediaRecorderRef s) as [r|] eqn:Hr; [|by rewrite Hr].
  destruct (isRecording s) eqn:Hrec; [|by rewrite Hr, Hrec].
  destruct (timerRef s), (state r); simpl; by rewrite ?Hr.
Qed.

Lemma startRecording_success (e : StartEnv) (w : Sys) :
  isRecording (fst (startRecording e w)) = true →
  ∃ stream ty,
    getUserMedia e = inr stream ∧
    streamRef (fst (startRecording e w)) = Some stream ∧
    mediaRecorderRef (fst (startRecording e w))
      = Some {| mimeType := ty; state := recording |} ∧
    timerRef (fst (startRecording e w)) = Some (nextIntervalId (snd w)) ∧
    intervals (snd (startRecording e w))
      = intervals (snd w) ∪ {[ nextIntervalId (snd w) ]} ∧
    liveTracks (snd (startRecording e w))
      = liveTracks (snd w) ∪ list_to_set (track_id <$> getTracks stream) ∧
    deviceRequests (snd (startRecording e w)) = S (deviceRequests (snd w)) ∧
    pendingRequests (snd (startRecording e w)) = pendingRequests (snd w).
Proof.
  destruct w as [s b].
  start_cases e; intros H; try discriminate H; eexists _, _; done.
Qed.

Lemma stopRecording_recording (s : State) (b : Browser) (ty : string)
    (id : positive) :
  isRecording s = true →
  mediaRecorderRef s = Some {| mimeType := ty; state := recording |} →
  timerRef s = Some id →
  stopRecording (s, b)
  = (set_mediaRecorderRef (Some {| mimeType := ty; state := inactive |})
       (setIsRecording false (set_timerRef None s)),
     clearInterval id b).
Proof. intros Hrec Hr Hid. unfold stopRecording. by rewrite Hr, Hrec, Hid. Qed.

Lemma onstop_data (suffix : string) (s : State) (b : Browser) :
  0 < totalSize (audioChunksRef s) →
  onstop suffix (s, b)
  = (set_streamRef None
       (setAudioUrl ("blob:" +:+ suffix)
          (setAudioBlob
             (Some (Blob.new (audioChunksRef s)
                             (firstChunkType (audioChunksRef s)))) s)),
     from_option (λ stream, stopTracks stream) id (streamRef s)
       (snd (createObjectURL suffix b))).
Proof.
  intros Htotal. unfold onstop.
  destruct (length (audioChunksRef s) =? 0) eqn:Hlength.
  { apply Nat.eqb_eq, length_zero_iff_nil in Hlength.
    rewrite Hlength in Htotal. by apply Nat.lt_irrefl in Htotal. }
  destruct (totalSize (audioChunksRef s) =? 0) eqn:Hzero;
    [apply Nat.eqb_eq in Hzero; lia|].
  rewrite size_new, <- totalSize_sum.
  apply Nat.ltb_lt in Htotal. rewrite Htotal. simpl.
  destruct (streamRef s) eqn:Hs; simpl; [done|].
  by destruct s; simpl in *; subst.
Qed.

(** X7: a whole session that started and recorded at least one byte ends
    with the flag cleared and both handles empty, no track of the acquired
    stream capturing, the interval it started stopped, one device request
    issued and none left pending. *)
Theorem session_releases_resources
    (e : StartEnv) (before after : list Blob.Blob) (suffix : string) (w : Sys) :
  isRecording (fst (startRecording e w)) = true →
  0 < sum_list (Blob.size <$> before ++ after) →
  isRecording (fst (session e before after suffix w)) = false ∧
  streamRef (fst (session e before after suffix w)) = None ∧
  timerRef (fst (session e before after suffix w)) = None ∧
  (∀ stream t, getUserMedia e = inr stream → t ∈ getTracks stream →
               track_id t ∉ liveTracks (snd (session e before after suffix w))) ∧
  intervals (snd (session e before after suffix w))
    = intervals (snd w) ∖ {[ nextIntervalId (snd w) ]} ∧
  deviceRequests (snd (session e before after suffix w))
    = S (deviceRequests (snd w)) ∧
  pendingRequests (snd (session e before after suffix w))
    = pendingRequests (snd w).
Proof.
  intros Hstarted Hsum.
  pose proof (session_buffer e before after w Hstarted) as Hbuffer.
  destruct (startRecording_success e w Hstarted)
    as (stream & ty & Hmedia & Hstream & Hrecorder & Htimer & Hintervals
        & Hlive & Hrequests & Hpending).
  unfold session in *.
  destruct (startRecording e w) as [s1 b1]. cbn [fst snd] in *.
  rewrite (stopRecording_recording _ _ ty (nextIntervalId (snd w))) in *;
    try (by rewrite deliver_appends).
  cbn [fst snd] in *.
  rewrite onstop_data
    by (by rewrite Hbuffer, totalSize_sum, sum_nonempty).
  rewrite !deliver_appends. simpl.
  rewrite Hstream. simpl. rewrite stopTracks_unfold. simpl.
  repeat split; try done.
  - intros stream' t Hmedia' Ht [_ Hout]%elem_of_difference. apply Hout.
    rewrite Hmedia in Hmedia'. injection Hmedia' as <-.
    apply elem_of_list_to_set, list_elem_of_fmap. eauto.
  - rewrite Hintervals. apply set_eq. intros x.
    rewrite !elem_of_difference, elem_of_union. tauto.
Qed.

Lemma session_releases_resources_witness :
  isRecording (fst (startRecording Scenario.granted (initial, Scenario.browser0)))
    = true ∧
  0 < sum_list (Blob.size <$> [Scenario.fragment 10 "audio/mp4";
                               Scenario.fragment 0 "audio/mp4"]
                              ++ [Scenario.fragment 20 "audio/mp4"]) ∧
  streamRef (fst Scenario.finalized) = None.
Proof.
  assert (0 < sum_list (Blob.size <$> [Scenario.fragment 10 "audio/mp4";
                                       Scenario.fragment 0 "audio/mp4"]
                                      ++ [Scenario.fragment 20 "audio/mp4"]))
    as Hsum by (simpl; lia).
  split; [reflexivity|]. split; [exact Hsum|].
  exact (proj1 (proj2 (session_releases_resources Scenario.granted
                         [Scenario.fragment 10 "audio/mp4";
                          Scenario.fragment 0 "audio/mp4"]
                         [Scenario.fragment 20 "audio/mp4"] "5b1c"
                         (initial, Scenario.browser0) eq_refl Hsum))).
Defined.

(** X8: after a recorder error the stop control is not rendered and the
    stop handler does nothing, so the interval of the session keeps running
    and keeps counting, and the stream stays held. *)
Theorem recorder_error_keeps_timer (s : State) (b : Browser) (id : positive) :
  timerRef s = Some id →
  id ∈ intervals b →
  stopRecording (onerror s, b) = (onerror s, b) ∧
  timerRef (onerror s) = Some id ∧
  id ∈ intervals (snd (stopRecording (onerror s, b))) ∧
  streamRef (onerror s) = streamRef s ∧
  (StopButton ∉ render (onerror s)) ∧
  recordingTime (tick (onerror s)) = recordingTime s + 1.
Proof.
  intros Hid Hin. unfold stopRecording, onerror. simpl.
  destruct (mediaRecorderRef s); repeat split; try done.
  all: unfold render; simpl; destruct (isSupported s); simpl;
    intros H; repeat (apply elem_of_cons in H as [H|H]; [discriminate H|]);
    try (by apply elem_of_nil in H).
  all: destruct (audioBlob s), (truthy (audioUrl s)); simpl in H;
    repeat (apply elem_of_cons in H as [H|H]; [discriminate H|]);
    by apply elem_of_nil in H.
Qed.

Lemma recorder_error_keeps_timer_witness :
  timerRef (fst Scenario.recordingOneChunk) = Some 1%positive ∧
  1%positive ∈ intervals (snd Scenario.recordingOneChunk) ∧
  stopRecording Cases.failedWhileRecording = Cases.failedWhileRecording.
Proof.
  assert (1%positive ∈ intervals (snd Scenario.recordingOneChunk)) as Hin
    by (by apply (bool_decide_unpack _)).
  split; [reflexivity|]. split; [exact Hin|].
  exact (proj1 (recorder_error_keeps_timer (fst Scenario.recordingOneChunk)
                  (snd Scenario.recordingOneChunk) 1%positive eq_refl Hin)).
Defined.

Lemma consistent_initial : RecorderEvents.consistent initial.
Proof.
  unfold RecorderEvents.consistent. simpl. repeat split; try done.
Qed.

Lemma consistent_start_settled (e : StartEnv) (w : Sys) :
  RecorderEvents.consistent (fst w) →
  RecorderEvents.consistent (fst (startRecording_resume e w)).
Proof.
  destruct w as [s b]. unfold RecorderEvents.consistent. cbn [fst].
  intros (Hchunks & Hurl & Hsize & Hm2 & Hm3).
  assert (∀ thrown,
    startErrorMessage thrown ≠ "Recorded audio file is empty. Please check your microphone and try again." ∧
    startErrorMessage thrown ≠ "Failed to create audio file. Please try recording again.")
    as Hmsg.
  { intros thrown. destruct (startErrorMessage_prefix thrown) as [rest ->].
    by split. }
  start_cases e; repeat split; try done; try apply Hurl; try apply Hmsg;
    try (by apply Forall_nil).
Qed.

Lemma consistent_onstop (suffix : string) (w : Sys) :
  RecorderEvents.consistent (fst w) →
  RecorderEvents.consistent (fst (onstop suffix w)).
Proof.
  destruct w as [s b]. unfold RecorderEvents.consistent. cbn [fst].
  intros (Hchunks & Hurl & Hsize & Hm2 & Hm3).
  destruct (Nat.eq_dec (totalSize (audioChunksRef s)) 0) as [Hzero|Hpos].
  - rewrite (onstop_empty _ _ _ Hzero). simpl.
    destruct (audioChunksRef s) as [|c chunks]; simpl; [done|].
    exfalso. apply Forall_cons in Hchunks as [Hc _].
    unfold nonEmpty in Hc. apply Nat.ltb_lt in Hc.
    rewrite totalSize_sum in Hzero. simpl in Hzero. lia.
  - rewrite onstop_data by lia. simpl. repeat split; try done.
    intros artifact [= <-]. rewrite size_new, <- totalSize_sum. lia.
Qed.

Lemma consistent_step (event : RecorderEvents.Event) (w : Sys) :
  RecorderEvents.consistent (fst w) →
  RecorderEvents.consistent (fst (RecorderEvents.step event w)).
Proof.
  destruct event; simpl;
    try apply consistent_start_settled; try apply consistent_onstop;
    destruct w as [s b]; unfold RecorderEvents.consistent; cbn [fst];
    intros (Hchunks & Hurl & Hsize & Hm2 & Hm3).
  - simpl. repeat split; try done; apply Hurl.
  - unfold ondataavailable.
    destruct (nonEmpty data) eqn:Hdata; [|done]. simpl.
    split; [|done]. apply Forall_app. split; [done|]. by apply Forall_singleton.
  - unfold stopRecording.
    destruct (mediaRecorderRef s) as [r|]; [|done].
    destruct (isRecording s); [|done].
    by destruct (timerRef s), (state r).
  - simpl. repeat split; try done; apply Hurl.
  - done.
  - simpl. repeat split; done.
  - unfold effect. destruct supported; simpl; repeat split; try done;
      apply Hurl.
  - done.
Qed.

Lemma consistent_run (events : list RecorderEvents.Event) (w : Sys) :
  RecorderEvents.consistent (fst w) →
  RecorderEvents.consistent (fst (RecorderEvents.run events w)).
Proof.
  revert w. induction events as [|event events IH]; intros w Hw; [done|].
  unfold RecorderEvents.run in *. simpl. by apply IH, consistent_step.
Qed.

(** X9: whatever events a mounted recorder has handled, its buffer holds
    only chunks with bytes, so the total size is zero exactly when the
    buffer is empty. *)
Theorem buffer_holds_no_empty_chunk
    (events : list RecorderEvents.Event) (b : Browser) :
  Forall (λ chunk, 0 < Blob.size chunk)
         (audioChunksRef (fst (RecorderEvents.run events (initial, b)))) ∧
  (totalSize (audioChunksRef (fst (RecorderEvents.run events (initial, b)))) = 0
   ↔ audioChunksRef (fst (RecorderEvents.run events (initial, b))) = []).
Proof.
  destruct (consistent_run events (initial, b) consistent_initial)
    as (Hchunks & _).
  assert (Forall (λ chunk, 0 < Blob.size chunk)
            (audioChunksRef (fst (RecorderEvents.run events (initial, b)))))
    as Hpos.
  { eapply Forall_impl; [exact Hchunks|]. intros chunk Hc.
    by apply Nat.ltb_lt. }
  split; [exact Hpos|].
  destruct (audioChunksRef (fst (RecorderEvents.run events (initial, b))))
    as [|c chunks]; [done|].
  apply Forall_cons in Hpos as [Hc _].
  rewrite totalSize_sum. csimpl. split; [lia|done].
Qed.

(** X10: whatever events a mounted recorder has handled, its error message
    is neither the zero-total message nor the creation-failure message:
    the two error branches of the stop handler after its empty-buffer test
    are never taken. *)
Theorem later_stop_messages_never_set
    (events : list RecorderEvents.Event) (b : Browser) :
  error (fst (RecorderEvents.run events (initial, b)))
    ≠ "Recorded audio file is empty. Please check your microphone and try again." ∧
  error (fst (RecorderEvents.run events (initial, b)))
    ≠ "Failed to create audio file. Please try recording again.".
Proof.
  by destruct (consistent_run events (initial, b) consistent_initial)
    as (_ & _ & _ & ? & ?).
Qed.

(** X11: whatever events a mounted recorder has handled, it holds an
    artifact exactly when it holds a preview URL, an artifact has bytes,
    and a supported recorder shows the result panel exactly when it holds
    an artifact and always offers the start control, the stop control or
    the result panel. *)
Theorem artifact_and_preview_go_together
    (events : list RecorderEvents.Event) (b : Browser) :
  (is_Some (audioBlob (fst (RecorderEvents.run events (initial, b))))
   ↔ audioUrl (fst (RecorderEvents.run events (initial, b))) ≠ "") ∧
  (∀ artifact,
     audioBlob (fst (RecorderEvents.run events (initial, b))) = Some artifact →
     0 < Blob.size artifact) ∧
  (isSupported (fst (RecorderEvents.run events (initial, b))) = true →
   (ResultPanel ∈ render (fst (RecorderEvents.run events (initial, b)))
    ↔ is_Some (audioBlob (fst (RecorderEvents.run events (initial, b))))) ∧
   (StartButton ∈ render (fst (RecorderEvents.run events (initial, b))) ∨
    StopButton ∈ render (fst (RecorderEvents.run events (initial, b))) ∨
    ResultPanel ∈ render (fst (RecorderEvents.run events (initial, b))))).
Proof.
  destruct (consistent_run events (initial, b) consistent_initial)
    as (_ & Hurl & Hsize & _).
  split; [exact Hurl|]. split; [exact Hsize|].
  intros Hsupported. unfold render. rewrite Hsupported. simpl.
  destruct (audioBlob (fst (RecorderEvents.run events (initial, b))))
    as [artifact|] eqn:Hblob.
  - assert (truthy (audioUrl (fst (RecorderEvents.run events (initial, b))))
            = true) as ->.
    { destruct (audioUrl (fst (RecorderEvents.run events (initial, b))));
        [|done]. by destruct (proj1 Hurl). }
    destruct (truthy (error _)), (isRecording _); simpl;
      rewrite ?elem_of_cons, ?elem_of_nil;
      intuition (discriminate || eauto).
  - destruct (truthy (error _)), (isRecording _); simpl;
      rewrite ?elem_of_cons, ?elem_of_nil;
      (split; [split; [|by intros [? ?]]|]);
      intuition (discriminate || eauto).
Qed.

Lemma step_keeps_unsupported (event : RecorderEvents.Event) (w : Sys) :
  isSupported (fst w) = false →
  isSupported (fst (RecorderEvents.step event w)) = false.
Proof.
  destruct w as [s b]. cbn [fst]. intros Hs.
  destruct event; simpl; try done.
  - revert Hs. clear. intros Hs.
    unfold startRecording_resume, startRecording_try, startRecording_catch,
      awaitUserMedia, newMediaRecorderWithMime, newMediaRecorderPlain, start,
      try_catch, bind, ret, throw, onState, onBrowser, fromBrowser.
    destruct e as [[err|stream] probe [err1|] [err2|ty] [err3|]]; simpl;
      try destruct (length (getAudioTracks stream) =? 0); simpl; done.
  - unfold ondataavailable. by destruct (nonEmpty data).
  - unfold stopRecording.
    destruct (mediaRecorderRef s) as [r|]; [|done].
    destruct (isRecording s); [|done].
    by destruct (timerRef s), (state r).
  - unfold onstop.
    destruct (length (audioChunksRef s) =? 0); [done|].
    destruct (totalSize (audioChunksRef s) =? 0); [done|].
    destruct (0 <? Blob.size _); simpl; by destruct (streamRef s).
  - unfold effect. by destruct supported.
Qed.

(** X12: once the capability test has failed, no event makes the component
    supported again, and only the notice is rendered. *)
Theorem unsupported_stays_unsupported
    (events : list RecorderEvents.Event) (w : Sys) :
  isSupported (fst w) = false →
  isSupported (fst (RecorderEvents.run events w)) = false ∧
  render (fst (RecorderEvents.run events w)) = [UnsupportedNotice].
Proof.
  intros Hs.
  assert (isSupported (fst (RecorderEvents.run events w)) = false) as Hrun.
  { revert w Hs. induction events as [|event events IH]; intros w Hs; [done|].
    unfold RecorderEvents.run in *. simpl. by apply IH, step_keeps_unsupported. }
  split; [exact Hrun|]. unfold render. by rewrite Hrun.
Qed.

Lemma unsupported_stays_unsupported_witness :
  isSupported (effect false initial) = false ∧
  render (fst (RecorderEvents.run
                 [RecorderEvents.StartClicked;
                  RecorderEvents.StartSettled Scenario.granted;
                  RecorderEvents.EffectRun true]
                 (effect false initial, Scenario.browser0)))
    = [UnsupportedNotice].
Proof.
  split; [reflexivity|].
  exact (proj2 (unsupported_stays_unsupported
                  [RecorderEvents.StartClicked;
                   RecorderEvents.StartSettled Scenario.granted;
                   RecorderEvents.EffectRun true]
                  (effect false initial, Scenario.browser0) eq_refl)).
Defined.

Lemma finalization_releases_stream_witness :
  0 < totalSize (audioChunksRef (fst Cases.stoppedOneChunk)) ∧
  streamRef (fst Cases.stoppedOneChunk) = Some Scenario.microphone ∧
  streamRef (fst (onstop "5b1c" Cases.stoppedOneChunk)) = None.
Proof.
  assert (0 < totalSize (audioChunksRef (fst Cases.stoppedOneChunk))) as Htotal
    by (vm_compute; lia).
  split; [exact Htotal|]. split; [reflexivity|].
  exact (proj1 (finalization_releases_stream "5b1c" Cases.stoppedOneChunk
                  Scenario.microphone Htotal eq_refl)).
Defined.

Lemma start_failure_reports_witness :
  fst (startRecording_try Scenario.startThrows
         (startRecording_request (initial, Scenario.browser0)))
    = inl {| instanceofError := true; name := "NotSupportedError";
             message := "The stream cannot be recorded" |} ∧
  isRecording (fst (startRecording Scenario.startThrows
                      (initial, Scenario.browser0))) = false.
Proof.
  split; [reflexivity|].
  exact (proj2 (proj2 (start_failure_reports Scenario.startThrows _
                         (initial, Scenario.browser0) eq_refl))).
Defined.

Lemma start_rejected_witness :
  getUserMedia Scenario.denied
    = inl {| instanceofError := true; name := "NotAllowedError";
             message := "Permission denied" |} ∧
  streamRef (fst (startRecording Scenario.denied (initial, Scenario.browser0)))
    = streamRef (fst (initial, Scenario.browser0)).
Proof.
  split; [reflexivity|].
  exact (proj1 (proj2 (proj2 (start_rejected Scenario.denied _
                                (initial, Scenario.browser0) eq_refl)))).
Defined.

End MoreRecorder.

(** ** The elapsed-time display *)

Section Time.
Import Display.

Lemma string_length_app (s1 s2 : string) :
  String.length (s1 +:+ s2) = String.length s1 + String.length s2.
Proof.
  induction s1 as [|c s1 IH]; [done|].
  change (S (String.length (s1 +:+ s2)) = S (String.length s1 + String.length s2)).
  by rewrite IH.
Qed.

(** Two strings that end in suffixes of one length agree part by part. *)
Lemma string_app_inj (x y t t' : string) :
  String.length t = String.length t' →
  x +:+ t = y +:+ t' → x = y ∧ t = t'.
Proof.
  intros Hlen. revert y. induction x as [|c x IH]; intros [|d y] Heq.
  - done.
  - change (t = String d (y +:+ t')) in Heq. rewrite Heq in Hlen.
    simpl in Hlen. rewrite string_length_app in Hlen. lia.
  - change (String c (x +:+ t) = t') in Heq. rewrite <- Heq in Hlen.
    simpl in Hlen. rewrite string_length_app in Hlen. lia.
  - change (String c (x +:+ t) = String d (y +:+ t')) in Heq.
    injection Heq as -> Heq. by destruct (IH _ Heq) as [-> ->].
Qed.

Lemma secondsField_length (secs : nat) :
  secs < 60 → String.length (secondsField secs) = 2.
Proof.
  intros Hlt.
  assert (forallb (λ n, String.length (secondsField n) =? 2) (seq 0 60) = true)
    as Hall by (vm_compute; reflexivity).
  rewrite forallb_forall in Hall.
  apply Nat.eqb_eq, Hall, in_seq. lia.
Qed.

Lemma secondsField_inj (a b : nat) :
  a < 60 → b < 60 → secondsField a = secondsField b → a = b.
Proof.
  intros Ha Hb Heq.
  assert (NoDup (secondsField <$> seq 0 60)) as Hnodup
    by (apply (bool_decide_unpack _); vm_compute; exact I).
  apply (NoDup_lookup _ a b (secondsField a)) in Hnodup; [done|..].
  - rewrite list_lookup_fmap, lookup_seq_lt by done. done.
  - rewrite list_lookup_fmap, lookup_seq_lt by done. simpl. by rewrite Heq.
Qed.

(** X15: the display is the minutes in decimal, a colon and a seconds field
    of exactly two characters, zero-padded below ten; two different
    elapsed times are displayed differently. *)
Theorem formatTime_shape_and_injective (a b : nat) :
  (∃ field, formatTime a = pretty (a / 60) +:+ ":" +:+ field ∧
            String.length field = 2 ∧
            (a mod 60 < 10 → field = "0" +:+ pretty (a mod 60)) ∧
            (10 ≤ a mod 60 → field = pretty (a mod 60))) ∧
  (formatTime a = formatTime b → a = b).
Proof.
  split.
  - exists (secondsField (a mod 60)). split; [done|].
    split; [apply secondsField_length, Nat.mod_upper_bound; lia|].
    assert (forallb (λ n, if n <? 10
                          then bool_decide (secondsField n = "0" +:+ pretty n)
                          else bool_decide (secondsField n = pretty n))
                    (seq 0 60) = true) as Hall by (vm_compute; reflexivity).
    rewrite forallb_forall in Hall.
    assert (In (a mod 60) (seq 0 60)) as Hin.
    { apply in_seq. pose proof (Nat.mod_upper_bound a 60). lia. }
    specialize (Hall _ Hin). split; intros Hcase.
    + apply Nat.ltb_lt in Hcase. rewrite Hcase in Hall.
      by apply bool_decide_eq_true in Hall.
    + apply Nat.ltb_ge in Hcase. rewrite Hcase in Hall.
      by apply bool_decide_eq_true in Hall.
  - unfold formatTime. intros Heq.
    apply string_app_inj in Heq as [Hmins Hsecs].
    + apply (inj pretty) in Hmins.
      apply (inj (String.app ":")) in Hsecs.
      apply (secondsField_inj (a mod 60) (b mod 60)) in Hsecs;
        try (apply Nat.mod_upper_bound; lia).
      pose proof (Nat.div_mod_eq a 60). pose proof (Nat.div_mod_eq b 60). lia.
    + change (S (String.length (secondsField (a mod 60)))
              = S (String.length (secondsField (b mod 60)))).
      rewrite !secondsField_length; try (apply Nat.mod_upper_bound; lia). done.
Qed.
End Time.

(** ** More on the upload workflow *)

Section MoreUpload.
Import JS Supabase App.

(** X16: when the storage refuses the upload, nothing is stored or inserted
    and no time-out is scheduled; the form keeps its fields, the notice of
    success is off, the upload flag is off, and the message is the one of
    the error, or the fixed one for a value that is no [Error]. *)
Theorem upload_refused_changes_nothing
    (e : UploadEnv) (audioBlob : Blob.Blob) (a : State) (be : Backend)
    (refusal : Thrown) :
  truthy (trim (candidateName a)) = true →
  truthy (trim (questionLabel a)) = true →
  uploadResult e = Some refusal →
  snd (handleRecordingComplete e audioBlob (a, be)) = be ∧
  fst (handleRecordingComplete e audioBlob (a, be))
  = setIsUploading false
      (setUploadError
         (if instanceofError refusal then message refusal
          else "Failed to upload recording")
         (setUploadSuccess false a)).
Proof.
  intros Hname Hlabel Hupload. unfold handleRecordingComplete.
  rewrite Hname, Hlabel, Hupload. simpl. by destruct a.
Qed.

Lemma upload_refused_changes_nothing_witness :
  truthy (trim (candidateName (Scenario.form "Ann" "Q1"))) = true ∧
  truthy (trim (questionLabel (Scenario.form "Ann" "Q1"))) = true ∧
  uploadResult Cases.refused
    = Some {| instanceofError := true; name := "StorageError";
              message := "The resource already exists" |} ∧
  snd (handleRecordingComplete Cases.refused Scenario.artifact
         (Scenario.form "Ann" "Q1", Scenario.backend0))
  = Scenario.backend0.
Proof.
  do 3 (split; [reflexivity|]).
  exact (proj1 (upload_refused_changes_nothing Cases.refused Scenario.artifact
                  (Scenario.form "Ann" "Q1") Scenario.backend0 _
                  eq_refl eq_refl eq_refl)).
Defined.

(** X17: when the table refuses the row after the storage accepted the
    upload, the uploaded blob stays stored, no row is added, and the form
    keeps its fields with the error message set. *)
Theorem insert_refused_keeps_upload
    (e : UploadEnv) (audioBlob : Blob.Blob) (a : State) (be : Backend)
    (refusal : Thrown) :
  truthy (trim (candidateName a)) = true →
  truthy (trim (questionLabel a)) = true →
  uploadResult e = None →
  insertResult e = Some refusal →
  (∃ stored,
     uploads (snd (handleRecordingComplete e audioBlob (a, be)))
       = uploads be ++ [stored] ∧
     Blob.bytes (body stored) = Blob.bytes audioBlob) ∧
  recording_logs (snd (handleRecordingComplete e audioBlob (a, be)))
    = recording_logs be ∧
  timeouts (snd (handleRecordingComplete e audioBlob (a, be))) = timeouts be ∧
  fst (handleRecordingComplete e audioBlob (a, be))
  = setIsUploading false
      (setUploadError
         (if instanceofError refusal then message refusal
          else "Failed to upload recording")
         (setUploadSuccess false a)).
Proof.
  intros Hname Hlabel Hupload Hinsert. unfold handleRecordingComplete.
  rewrite Hname, Hlabel, Hupload, Hinsert. simpl.
  split; [|by destruct a].
  eexists. split; [done|]. simpl. by rewrite app_nil_r.
Qed.

Lemma insert_refused_keeps_upload_witness :
  truthy (trim (candidateName (Scenario.form "Ann" "Q1"))) = true ∧
  truthy (trim (questionLabel (Scenario.form "Ann" "Q1"))) = true ∧
  uploadResult Cases.rowRefused = None ∧
  insertResult Cases.rowRefused
    = Some {| instanceofError := false; name := "";
              message := "new row violates row-level security policy" |} ∧
  recording_logs (snd (handleRecordingComplete Cases.rowRefused Scenario.artifact
                         (Scenario.form "Ann" "Q1", Scenario.backend0)))
  = recording_logs Scenario.backend0.
Proof.
  do 4 (split; [reflexivity|]).
  exact (proj1 (proj2 (insert_refused_keeps_upload Cases.rowRefused
                         Scenario.artifact (Scenario.form "Ann" "Q1")
                         Scenario.backend0 _ eq_refl eq_refl eq_refl eq_refl))).
Defined.

(** X18: one run of the upload workflow only appends: at most one upload
    and at most one row, a row only with an upload; an appended upload goes
    to the recordings bucket without upsert, typed [audio/wav], with the
    bytes of the artifact; an appended row has a non-empty candidate name
    and question label, the id of the signed-in user and the public URL of
    the appended upload; the screen shown stays the same. *)
Theorem upload_only_appends
    (e : UploadEnv) (audioBlob : Blob.Blob) (a : State) (be : Backend) :
  ∃ stored rows,
    uploads (snd (handleRecordingComplete e audioBlob (a, be)))
      = uploads be ++ stored ∧
    recording_logs (snd (handleRecordingComplete e audioBlob (a, be)))
      = recording_logs be ++ rows ∧
    length rows ≤ length stored ≤ 1 ∧
    Forall (λ u, bucket u = "recordings" ∧ upsert u = false ∧
                 Blob.type (body u) = "audio/wav" ∧
                 Blob.bytes (body u) = Blob.bytes audioBlob) stored ∧
    Forall (λ row, truthy (candidate_name row) = true ∧
                   truthy (question_label row) = true ∧
                   user_id row = id <$> user a ∧
                   ∃ u, u ∈ stored ∧ file_url row = getPublicUrl e (path u))
           rows ∧
    AppShell.render (fst (handleRecordingComplete e audioBlob (a, be)))
      = AppShell.render a.
Proof.
  unfold handleRecordingComplete.
  destruct (truthy (trim (candidateName a))) eqn:Hname; simpl.
  2: { exists [], []. rewrite !app_nil_r.
       repeat split; simpl; try done; try lia; apply Forall_nil. }
  destruct (truthy (trim (questionLabel a))) eqn:Hlabel; simpl.
  2: { exists [], []. rewrite !app_nil_r.
       repeat split; simpl; try done; try lia; apply Forall_nil. }
  destruct (uploadResult e) as [refusal|]; simpl.
  { exists [], []. rewrite !app_nil_r.
    repeat split; simpl; try done; try lia; apply Forall_nil. }
  destruct (insertResult e) as [refusal|]; simpl.
  - eexists [_], []. rewrite !app_nil_r.
    repeat split; simpl; try done; try lia; try apply Forall_nil.
    apply Forall_singleton. simpl. by rewrite app_nil_r.
  - eexists [_], [_]. repeat split; simpl; try done; try lia.
    + apply Forall_singleton. simpl. by rewrite app_nil_r.
    + apply Forall_singleton. simpl. repeat split; try done.
      eexists. split; [apply list_elem_of_singleton; reflexivity|done].
Qed.

(** X19: the row inserted for a signed-in user carries the trimmed names,
    the question position and the user's id, and passes the query the
    list sends for that user. *)
Theorem uploaded_row_is_listed
    (e : UploadEnv) (audioBlob : Blob.Blob) (a : State) (be : Backend)
    (u : User) :
  user a = Some u →
  truthy (trim (candidateName a)) = true →
  truthy (trim (questionLabel a)) = true →
  uploadResult e = None →
  insertResult e = None →
  ∃ row,
    recording_logs (snd (handleRecordingComplete e audioBlob (a, be)))
      = recording_logs be ++ [row] ∧
    candidate_name row = trim (candidateName a) ∧
    question_label row = trim (questionLabel a) ∧
    question_position row = Some (questionPosition a) ∧
    user_id row = Some (id u) ∧
    passes (RecordingsList.fetchRecordings_query u) row = true.
Proof.
  intros Huser Hname Hlabel Hupload Hinsert. unfold handleRecordingComplete.
  rewrite Hname, Hlabel, Hupload, Hinsert. simpl.
  eexists. split; [done|]. simpl. rewrite Huser. simpl. repeat split.
  unfold RecordingsList.fetchRecordings_query, passes.
  destruct (isAdmin (Some u)); simpl; [done|].
  rewrite andb_true_r. by apply bool_decide_eq_true.
Qed.

Lemma uploaded_row_is_listed_witness :
  user (Scenario.form "Ann" "Q1") = Some Cases.ann ∧
  truthy (trim (candidateName (Scenario.form "Ann" "Q1"))) = true ∧
  truthy (trim (questionLabel (Scenario.form "Ann" "Q1"))) = true ∧
  uploadResult Scenario.accepted = None ∧
  insertResult Scenario.accepted = None ∧
  ∃ row,
    recording_logs (snd (handleRecordingComplete Scenario.accepted
                           Scenario.artifact
                           (Scenario.form "Ann" "Q1", Scenario.backend0)))
      = recording_logs Scenario.backend0 ++ [row] ∧
    candidate_name row = trim (candidateName (Scenario.form "Ann" "Q1")) ∧
    question_label row = trim (questionLabel (Scenario.form "Ann" "Q1")) ∧
    question_position row = Some (questionPosition (Scenario.form "Ann" "Q1")) ∧
    user_id row = Some (id Cases.ann) ∧
    passes (RecordingsList.fetchRecordings_query Cases.ann) row = true.
Proof.
  do 5 (split; [reflexivity|]).
  apply uploaded_row_is_listed; reflexivity.
Defined.

End MoreUpload.

(** ** The list and the shell *)

Section MoreLists.
Import JS Supabase RecordingsList.

Lemma recordings_query_passes (user : User) (row : RecordingLog) :
  passes (fetchRecordings_query user) row = true
  ↔ isAdmin (Some user) = true ∨ user_id row = Some (id user).
Proof.
  unfold fetchRecordings_query, passes.
  destruct (isAdmin (Some user)); simpl; [by intuition|].
  rewrite andb_true_r, bool_decide_eq_true. intuition discriminate.
Qed.

(** X20: when the store answers the query the list sends, the list ends
    without loading flag and without error, holding all rows of the table
    for the admin and exactly the user's own rows otherwise. *)
Theorem fetch_shows_the_rows_of_the_query
    (user : User) (table : list RecordingLog)
    (response : ListView.Response) (st : ListView.State) :
  ListView.answers (fetchRecordings_query user) table response →
  ListView.loading (ListView.fetchRecordings response st) = false ∧
  ListView.error (ListView.fetchRecordings response st) = "" ∧
  (isAdmin (Some user) = true →
   ListView.recordings (ListView.fetchRecordings response st) ≡ₚ table) ∧
  (isAdmin (Some user) = false →
   ∀ row, row ∈ ListView.recordings (ListView.fetchRecordings response st)
          ↔ row ∈ table ∧ user_id row = Some (id user)).
Proof.
  intros (Hok & rows & Hdata & Hrows).
  unfold ListView.fetchRecordings. rewrite Hok, Hdata. simpl.
  split; [done|]. split; [done|].
  pose proof (recordings_query_passes user) as Hpasses.
  split.
  - intros Hadmin. rewrite Hrows.
    assert (List.filter (passes (fetchRecordings_query user)) table = table)
      as ->; [|done].
    apply forallb_filter_id, forallb_forall. intros row _.
    apply Hpasses. by left.
  - intros Hadmin row. change (isAdmin (Some user) = false) in Hadmin.
    rewrite Hrows.
    rewrite !list_elem_of_In, filter_In, Hpasses.
    rewrite Hadmin. intuition discriminate.
Qed.

Lemma fetch_shows_the_rows_of_the_query_witness :
  ListView.answers (fetchRecordings_query Cases.ann) Cases.table
    {| ListView.data := Some [Cases.rowOf (Some "u-1") "Ann"];
       ListView.failure := None |} ∧
  ListView.error
    (ListView.fetchRecordings
       {| ListView.data := Some [Cases.rowOf (Some "u-1") "Ann"];
          ListView.failure := None |} Cases.emptyList) = "".
Proof.
  assert (ListView.answers (fetchRecordings_query Cases.ann) Cases.table
            {| ListView.data := Some [Cases.rowOf (Some "u-1") "Ann"];
               ListView.failure := None |}) as Hanswers.
  { split; [reflexivity|]. eexists. split; [reflexivity|]. reflexivity. }
  split; [exact Hanswers|].
  exact (proj1 (proj2 (fetch_shows_the_rows_of_the_query Cases.ann Cases.table
                         _ Cases.emptyList Hanswers))).
Defined.

(** X21: a failed fetch keeps the rows shown before, sets the fixed error
    message and clears the loading flag. *)
Theorem failed_fetch_keeps_the_list
    (response : ListView.Response) (st : ListView.State) (refusal : Thrown) :
  ListView.failure response = Some refusal →
  ListView.recordings (ListView.fetchRecordings response st)
    = ListView.recordings st ∧
  ListView.error (ListView.fetchRecordings response st)
    = "Failed to load recordings. Please try again." ∧
  ListView.loading (ListView.fetchRecordings response st) = false.
Proof. intros H. unfold ListView.fetchRecordings. by rewrite H. Qed.

Lemma failed_fetch_keeps_the_list_witness :
  ListView.failure
    {| ListView.data := None;
       ListView.failure := Some (JS.newError "Failed to fetch") |}
    = Some (JS.newError "Failed to fetch") ∧
  ListView.recordings
    (ListView.fetchRecordings
       {| ListView.data := None;
          ListView.failure := Some (JS.newError "Failed to fetch") |}
       Cases.emptyList)
  = ListView.recordings Cases.emptyList.
Proof.
  split; [reflexivity|].
  exact (proj1 (failed_fetch_keeps_the_list
                  {| ListView.data := None;
                     ListView.failure := Some (JS.newError "Failed to fetch") |}
                  Cases.emptyList (JS.newError "Failed to fetch") eq_refl)).
Defined.

(** X22: for a signed-in user the shell shows the main screen, whose admin
    mark and list tab agree with the heading of the list; the heading is
    All Recordings exactly when the query is unrestricted and My Recordings
    exactly when it is restricted to the user; a session event without
    user leads to the sign-in screen. *)
Theorem admin_marks_agree_with_the_query (a : App.State) (u : User) :
  App.user a = Some u →
  App.loading a = false →
  AppShell.render a
    = AppShell.Main (isAdmin (Some u)) (ListView.heading u) (App.currentView a) ∧
  (ListView.heading u = "All Recordings"
   ↔ filters (fetchRecordings_query u) = []) ∧
  (ListView.heading u = "My Recordings"
   ↔ filters (fetchRecordings_query u) = [("user_id", id u)]) ∧
  (∀ sessionUser, AppShell.render (AppShell.onSession sessionUser a)
                  = match sessionUser with
                    | None => AppShell.SignIn
                    | Some v => AppShell.Main (isAdmin (Some v)) (ListView.heading v)
                                              (App.currentView a)
                    end).
Proof.
  intros Huser Hloading. unfold AppShell.render, ListView.heading.
  rewrite Huser, Hloading. split; [done|].
  unfold fetchRecordings_query.
  destruct (isAdmin (Some u)); simpl; repeat split; try done.
  all: intros [v|]; simpl; done.
Qed.

Lemma admin_marks_agree_with_the_query_witness :
  App.user (Scenario.form "Ann" "Q1") = Some Cases.ann ∧
  App.loading (Scenario.form "Ann" "Q1") = false ∧
  AppShell.render (Scenario.form "Ann" "Q1")
    = AppShell.Main (isAdmin (Some Cases.ann)) (ListView.heading Cases.ann)
                    (App.currentView (Scenario.form "Ann" "Q1")).
Proof.
  do 2 (split; [reflexivity|]).
  exact (proj1 (admin_marks_agree_with_the_query (Scenario.form "Ann" "Q1")
                  Cases.ann eq_refl eq_refl)).
Defined.

End MoreLists.

(** ** The row-level policies *)

Section MorePolicies.
Import Supabase Policies.

Lemma allowed_by_public (db : Database) (table : string) (c : Command)
    (ses : Session) (r : Row) (p : Policy) :
  In p (policies db) →
  on_table p = table →
  sameCommand (for_command p) c = true →
  to p = public →
  holds (expr p) ses r = true →
  allowed db table c ses r = true.
Proof.
  intros Hin Htable Hcommand Hto Hholds. unfold allowed.
  case_bool_decide; [|done].
  apply existsb_exists. exists p. split; [done|].
  unfold applies. rewrite Hcommand, Hto, Hholds.
  by rewrite bool_decide_eq_true_2.
Qed.

(** The policies of [storage.objects] let an insert through exactly for
    the bucket they name. *)
Lemma storage_insert_allowed (db : Database) (ses : Session) (bucket : string) :
  In "storage.objects" (row_security db) →
  List.filter (λ p, bool_decide (on_table p = "storage.objects") &&
                    sameCommand (for_command p) INSERT) (policies db)
    = [ {| policy_name := "Public upload to recordings";
           on_table := "storage.objects"; for_command := INSERT;
           to := public; expr := BucketIs "recordings" |} ] →
  allowed db "storage.objects" INSERT ses (ObjectRow bucket) = true
  ↔ bucket = "recordings".
Proof.
  intros Hsecurity Hfilter. unfold allowed.
  rewrite bool_decide_eq_true_2 by (by apply list_elem_of_In).
  rewrite existsb_exists. split.
  - intros (p & Hin & Hp).
    apply andb_prop in Hp as [Hp Hholds]. apply andb_prop in Hp as [Hp _].
    assert (In p [ {| policy_name := "Public upload to recordings";
                      on_table := "storage.objects"; for_command := INSERT;
                      to := public; expr := BucketIs "recordings" |} ]) as Hone.
    { rewrite <- Hfilter. by apply filter_In. }
    destruct Hone as [<-|[]]. simpl in Hholds.
    by apply bool_decide_eq_true in Hholds.
  - intros ->.
    exists {| policy_name := "Public upload to recordings";
              on_table := "storage.objects"; for_command := INSERT;
              to := public; expr := BucketIs "recordings" |}.
    split; [|done].
    eapply (proj1 (filter_In _ _ _)). rewrite Hfilter. by left.
Qed.

(** X23: both migrations run without error, and after the first as after
    the second the policies let every session, signed in or not, select
    and insert every row of [recording_logs]; inserts into
    [storage.objects] pass exactly for the bucket [recordings]. *)
Theorem policies_let_every_session_through :
  ∃ first second,
    migrate soft_temple empty = Some first ∧
    migrate floating_unit first = Some second ∧
    (∀ db ses row, db = first ∨ db = second →
       allowed db "recording_logs" SELECT ses (LogRow row) = true ∧
       allowed db "recording_logs" INSERT ses (LogRow row) = true) ∧
    (∀ db ses bucket, db = first ∨ db = second →
       (allowed db "storage.objects" INSERT ses (ObjectRow bucket) = true
        ↔ bucket = "recordings")).
Proof.
  eexists _, _. split; [vm_compute; reflexivity|].
  split; [vm_compute; reflexivity|].
  split.
  - intros db ses row [-> | ->]; split.
    + apply (allowed_by_public _ _ _ _ _
               {| policy_name := "Public read access";
                  on_table := "recording_logs"; for_command := SELECT;
                  to := public; expr := ETrue |}); try reflexivity.
      repeat (first [left; reflexivity | right]).
    + apply (allowed_by_public _ _ _ _ _
               {| policy_name := "Public insert access";
                  on_table := "recording_logs"; for_command := INSERT;
                  to := public; expr := ETrue |}); try reflexivity.
      repeat (first [left; reflexivity | right]).
    + apply (allowed_by_public _ _ _ _ _
               {| policy_name := "Public can read all recordings";
                  on_table := "recording_logs"; for_command := SELECT;
                  to := public; expr := ETrue |}); try reflexivity.
      repeat (first [left; reflexivity | right]).
    + apply (allowed_by_public _ _ _ _ _
               {| policy_name := "Public can insert recordings";
                  on_table := "recording_logs"; for_command := INSERT;
                  to := public; expr := ETrue |}); try reflexivity.
      repeat (first [left; reflexivity | right]).
  - intros db ses bucket [-> | ->]; apply storage_insert_allowed;
      try (vm_compute; reflexivity);
      repeat (first [left; reflexivity | right]).
Qed.

(** X24: for a signed-in user who is not the admin, the policy expression
    [auth.uid() = user_id] holds on exactly the rows that the client's
    query filter passes. *)
Theorem own_rows_policy_matches_the_filter
    (u : User) (ses : Session) (row : RecordingLog) :
  isAdmin (Some u) = false →
  uid ses = Some (id u) →
  holds UidIsUserId ses (LogRow row)
  = passes (RecordingsList.fetchRecordings_query u) row.
Proof.
  intros Hadmin Huid. unfold RecordingsList.fetchRecordings_query, passes.
  rewrite Hadmin. simpl. rewrite Huid, andb_true_r. done.
Qed.

Lemma own_rows_policy_matches_the_filter_witness :
  isAdmin (Some Cases.ann) = false ∧
  uid {| role := signed_in; uid := Some "u-1"; users := [Cases.ann] |}
    = Some (id Cases.ann) ∧
  holds UidIsUserId
    {| role := signed_in; uid := Some "u-1"; users := [Cases.ann] |}
    (LogRow (Cases.rowOf (Some "u-2") "Bob"))
  = passes (RecordingsList.fetchRecordings_query Cases.ann)
      (Cases.rowOf (Some "u-2") "Bob").
Proof.
  do 2 (split; [reflexivity|]).
  exact (own_rows_policy_matches_the_filter Cases.ann
           {| role := signed_in; uid := Some "u-1"; users := [Cases.ann] |}
           (Cases.rowOf (Some "u-2") "Bob") eq_refl eq_refl).
Defined.

End MorePolicies.
